(** * Mini_player.py: the poll tick and the file-open sequence of MiniPlayer

    A shallow embedding of [src/Mini_player.py].  The methods of the class
    [MiniPlayer] are functions in a small monad that threads the object's
    attributes, may raise a Python exception, and records every call made
    to the media engine, the toolkit and the queue, in the order the code
    makes them. *)

From Stdlib Require Import ZArith List String Ascii Bool Lia.
Import ListNotations.

Local Open Scope Z_scope.

(* ================================================================== *)
(** ** Python values and the builtin [int] *)
(* ================================================================== *)

Module Py.

(** The exceptions the modelled code can meet.  [Empty] is
    [queue.Empty]. *)
Inductive exn : Type :=
| Empty
| ValueError
| TypeError
| OverflowError
| AttributeError.

Definition exn_eqb (e e' : exn) : bool :=
  match e, e' with
  | Empty, Empty | ValueError, ValueError
  | TypeError, TypeError | OverflowError, OverflowError
  | AttributeError, AttributeError => true
  | _, _ => false
  end.

Inductive result (A : Type) : Type :=
| Ok (a : A)
| Raise (e : exn).
Arguments Ok {A} a.
Arguments Raise {A} e.

(** A float is kept by its exact value: a finite double is [m * 2^e]. *)
Inductive float : Type :=
| Finite (m e : Z)
| Inf (negative : bool)
| NaN.

(** The objects a producer may put on the queue (a fragment: the queue
    itself accepts any object).  The characters of a [Str] are the code
    points of the text, each below 256; text with a character from 256 on
    is outside the fragment. *)
Inductive value : Type :=
| Int (z : Z)
| Bool (b : bool)
| Float (f : float)
| Str (s : string)
| None_.

(** The blanks [int] skips at either end of the literal: tab to carriage
    return and the space.  (Codes 28 to 31 are blanks for [str.isspace]
    but not here: [int] refuses them.) *)
Definition is_space (c : ascii) : bool :=
  let n := Z.of_nat (nat_of_ascii c) in
  ((9 <=? n) && (n <=? 13)) || (n =? 32).

(** Before it reads the literal, [int] turns every blank from code 128
    on into a space; below 256 these are the next-line character (133)
    and the no-break space (160).  Any other character from 128 on stays
    what it is, which is no part of a literal. *)
Definition to_space (c : ascii) : ascii :=
  let n := Z.of_nat (nat_of_ascii c) in
  if (n =? 133) || (n =? 160) then " "%char else c.

(** The most digits [int] takes from a string (the interpreter's default
    limit). *)
Definition max_str_digits : nat := 4300.

Definition is_digit (c : ascii) : bool :=
  let n := Z.of_nat (nat_of_ascii c) in (48 <=? n) && (n <=? 57).

Definition digit_value (c : ascii) : Z := Z.of_nat (nat_of_ascii c) - 48.

Fixpoint lstrip (cs : list ascii) : list ascii :=
  match cs with
  | c :: cs' => if is_space c then lstrip cs' else cs
  | [] => []
  end.

Definition strip (cs : list ascii) : list ascii :=
  rev (lstrip (rev (lstrip cs))).

(** Decimal digits with single underscores between digits;
    [after_digit] tells whether the previous character was a digit. *)
Fixpoint digits (cs : list ascii) (acc : Z) (after_digit : bool) : option Z :=
  match cs with
  | [] => if after_digit then Some acc else None
  | c :: cs' =>
      if is_digit c then digits cs' (10 * acc + digit_value c) true
      else if Ascii.eqb c "_"%char
           then (if after_digit then digits cs' acc false else None)
           else None
  end.

(** [int(s)], base 10: blanks at both ends, an optional sign, then the
    digits, at most [max_str_digits] of them. *)
Definition int_of_str (s : string) : option Z :=
  let cs := strip (map to_space (list_ascii_of_string s)) in
  if (max_str_digits <? List.length (filter is_digit cs))%nat then None
  else
    match cs with
    | "-"%char :: cs' => option_map Z.opp (digits cs' 0 false)
    | "+"%char :: cs' => digits cs' 0 false
    | _ => digits cs 0 false
    end.

(** [int(x)] for a finite float: truncation towards zero. *)
Definition trunc (m e : Z) : Z :=
  if 0 <=? e then m * 2 ^ e else Z.quot m (2 ^ (- e)).

(** The builtin [int]. *)
Definition int (v : value) : result Z :=
  match v with
  | Int z => Ok z
  | Bool b => Ok (if b then 1 else 0)
  | Float (Finite m e) => Ok (trunc m e)
  | Float (Inf _) => Raise OverflowError
  | Float NaN => Raise ValueError
  | Str s => match int_of_str s with
             | Some z => Ok z
             | None => Raise ValueError
             end
  | None_ => Raise TypeError
  end.

(** [bool(s)] of a string: the empty string is falsy. *)
Definition truthy (s : string) : bool :=
  match s with
  | EmptyString => false
  | String _ _ => true
  end.

End Py.

(* ================================================================== *)
(** ** The toolkit's clock value, as [update_statusbar] uses it *)
(* ================================================================== *)

Module QTime.

(** A time of day: the milliseconds since midnight.  The value is valid
    from 0 up to, not including, a day; the null time is -1. *)
Definition t : Type := Z.

Definition msecs_per_day : Z := 86400000.

Definition null : t := -1.

Definition isValid (x : t) : bool := (0 <=? x) && (x <? msecs_per_day).

(** [QTime(h, m, s, ms)]. *)
Definition make (h m s ms : Z) : t := ((h * 60 + m) * 60 + s) * 1000 + ms.

(** The argument of [addMSecs] is a C [int]: the binding refuses a Python
    integer outside it with [OverflowError]. *)
Definition fits_c_int (z : Z) : bool :=
  (-2147483648 <=? z) && (z <=? 2147483647).

(** Arithmetic on a C [int], kept in 32 bits: a result outside the type
    wraps around, as two's-complement hardware gives it. *)
Definition wrap32 (z : Z) : Z :=
  (z + 2147483648) mod 4294967296 - 2147483648.

(** The toolkit's [addMSecs] on a C [int], computed in 32 bits: for a
    negative [ms] it first adds whole days to get above zero,
    [negdays = (MSECS_PER_DAY - ms) / MSECS_PER_DAY] and
    [(ds() + ms + negdays * MSECS_PER_DAY) % MSECS_PER_DAY]; else
    [(ds() + ms) % MSECS_PER_DAY].  Division and remainder are C's; a time
    that is not valid gives the null time. *)
Definition addMSecs_int (x : t) (ms : Z) : t :=
  if isValid x then
    if ms <? 0 then
      let negdays := Z.quot (wrap32 (msecs_per_day - ms)) msecs_per_day in
      Z.rem (wrap32 (wrap32 (x + ms) + wrap32 (negdays * msecs_per_day)))
        msecs_per_day
    else Z.rem (wrap32 (x + ms)) msecs_per_day
  else null.

(** [addMSecs] as Python calls it. *)
Definition addMSecs (x : t) (ms : Z) : Py.result t :=
  if fits_c_int ms then Py.Ok (addMSecs_int x ms)
  else Py.Raise Py.OverflowError.

Definition digit (n : Z) : ascii := ascii_of_nat (48 + Z.to_nat n).

Definition two_digits (n : Z) : string :=
  String (digit (n / 10)) (String (digit (n mod 10)) EmptyString).

(** [toString()] with the default format, [HH:mm:ss]; the empty string
    for a time that is not valid. *)
Definition toString (x : t) : string :=
  if isValid x then
    (two_digits (x / 3600000) ++ ":" ++
     two_digits ((x / 60000) mod 60) ++ ":" ++
     two_digits ((x / 1000) mod 60))%string
  else EmptyString.

End QTime.

(* ================================================================== *)
(** ** The media engine's objects *)
(* ================================================================== *)

Module Vlc.

(** A media object made by [instance.media_new(path)].  [parse()] mutates
    it; the object is shared between the window's attribute and the player
    it was put in, so media objects live in a store and are named by their
    index in it. *)
Record Media : Type := mkMedia {
  mrl : string;
  parsed : bool
}.

Definition media_ref : Type := nat.

(** The native surface a player draws on: [set_xwindow], [set_hwnd] and
    [set_nsobject] each take the window id. *)
Inductive Drawable : Type :=
| XWindow (id : Z)
| Hwnd (id : Z)
| NSObject (id : Z).

(** A player handle.  The engine is a library outside the repository; a
    handle is kept by the attributes the code reads and writes through it:
    the bound media, the current position in milliseconds, the playing
    state and the attached surface. *)
Record MediaPlayer : Type := mkMediaPlayer {
  media : option media_ref;
  time : Z;
  playing : bool;
  drawable : option Drawable
}.

(** [instance.media_player_new()]: an empty player; an unbound player
    reports position [-1]. *)
Definition media_player_new : MediaPlayer :=
  mkMediaPlayer None (-1) false None.

Definition set_media (m : media_ref) (p : MediaPlayer) : MediaPlayer :=
  mkMediaPlayer (Some m) (time p) (playing p) (drawable p).

Definition set_drawable (d : Drawable) (p : MediaPlayer) : MediaPlayer :=
  mkMediaPlayer (media p) (time p) (playing p) (Some d).

Definition play (p : MediaPlayer) : MediaPlayer :=
  mkMediaPlayer (media p) (time p) true (drawable p).

(** [set_time(t)]: the position becomes [t]. *)
Definition set_time (t : Z) (p : MediaPlayer) : MediaPlayer :=
  mkMediaPlayer (media p) t (playing p) (drawable p).

Definition parse (m : Media) : Media := mkMedia (mrl m) true.

End Vlc.

(* ================================================================== *)
(** ** The window object and the calls it makes *)
(* ================================================================== *)

(** The two tracks, one player each. *)
Inductive Track : Type := Video | Audio.

(** A call made by the code to an object it does not own the code of, with
    its arguments. *)
Inductive Call : Type :=
| GetOpenFileName (caption dir : string)
| MediaNew (path : string)
| SetMedia (k : Track) (m : Vlc.media_ref)
| Parse (m : Vlc.media_ref)
| GetMeta (m : Vlc.media_ref) (e : Z)
| SetWindowTitle (s : string)
| SetXWindow (k : Track) (id : Z)
| SetHwnd (k : Track) (id : Z)
| SetNsobject (k : Track) (id : Z)
| Play (k : Track)
| GetTime (k : Track)
| SetTime (k : Track) (t : Z)
| IsPlaying (k : Track)
| ShowMessage (s : string)
| QueueGet.

(** The widget [init_ui] draws the video in. *)
Inductive Frame : Type := QMacCocoaViewContainer | QFrame.

(** What the surroundings answer: the operating system's name, the home
    directory, the user's choice in a file dialog (by caption and start
    directory; the first component is the file name, empty when the dialog
    is cancelled), the window id of the video frame, and the engine's
    answer to [get_meta] (a string or [None]). *)
Record Host : Type := mkHost {
  platform_system : string;
  expanduser_home : string;
  getOpenFileName : string -> string -> string * string;
  winId : Z;
  get_meta : Vlc.Media -> Z -> option string
}.

(** The attributes of a [MiniPlayer]. *)
Record MiniPlayer : Type := mkMiniPlayer {
  windowTitle : string;
  statusbar : string;
  videoframe : option Frame;
  media_store : list Vlc.Media;
  video_media : option Vlc.media_ref;
  audio_media : option Vlc.media_ref;
  video_mediaplayer : Vlc.MediaPlayer;
  audio_mediaplayer : Vlc.MediaPlayer;
  data_queue : list Py.value
}.

Definition mediaplayer (k : Track) (w : MiniPlayer) : Vlc.MediaPlayer :=
  match k with
  | Video => video_mediaplayer w
  | Audio => audio_mediaplayer w
  end.

Definition with_windowTitle (s : string) (w : MiniPlayer) : MiniPlayer :=
  mkMiniPlayer s (statusbar w) (videoframe w) (media_store w)
    (video_media w) (audio_media w) (video_mediaplayer w)
    (audio_mediaplayer w) (data_queue w).

Definition with_statusbar (s : string) (w : MiniPlayer) : MiniPlayer :=
  mkMiniPlayer (windowTitle w) s (videoframe w) (media_store w)
    (video_media w) (audio_media w) (video_mediaplayer w)
    (audio_mediaplayer w) (data_queue w).

Definition with_videoframe (f : Frame) (w : MiniPlayer) : MiniPlayer :=
  mkMiniPlayer (windowTitle w) (statusbar w) (Some f) (media_store w)
    (video_media w) (audio_media w) (video_mediaplayer w)
    (audio_mediaplayer w) (data_queue w).

Definition with_media_store (ms : list Vlc.Media) (w : MiniPlayer) : MiniPlayer :=
  mkMiniPlayer (windowTitle w) (statusbar w) (videoframe w) ms
    (video_media w) (audio_media w) (video_mediaplayer w)
    (audio_mediaplayer w) (data_queue w).

Definition with_media (k : Track) (m : Vlc.media_ref) (w : MiniPlayer) : MiniPlayer :=
  match k with
  | Video =>
      mkMiniPlayer (windowTitle w) (statusbar w) (videoframe w) (media_store w)
        (Some m) (audio_media w) (video_mediaplayer w)
        (audio_mediaplayer w) (data_queue w)
  | Audio =>
      mkMiniPlayer (windowTitle w) (statusbar w) (videoframe w) (media_store w)
        (video_media w) (Some m) (video_mediaplayer w)
        (audio_mediaplayer w) (data_queue w)
  end.

Definition with_mediaplayer (k : Track) (p : Vlc.MediaPlayer) (w : MiniPlayer) : MiniPlayer :=
  match k with
  | Video =>
      mkMiniPlayer (windowTitle w) (statusbar w) (videoframe w) (media_store w)
        (video_media w) (audio_media w) p
        (audio_mediaplayer w) (data_queue w)
  | Audio =>
      mkMiniPlayer (windowTitle w) (statusbar w) (videoframe w) (media_store w)
        (video_media w) (audio_media w) (video_mediaplayer w)
        p (data_queue w)
  end.

Definition with_data_queue (q : list Py.value) (w : MiniPlayer) : MiniPlayer :=
  mkMiniPlayer (windowTitle w) (statusbar w) (videoframe w) (media_store w)
    (video_media w) (audio_media w) (video_mediaplayer w)
    (audio_mediaplayer w) q.

(* ================================================================== *)
(** ** The monad of a method body *)
(* ================================================================== *)

(** What running a method from a given object gives: the value returned or
    the exception raised, the object afterwards, and the calls made, oldest
    first. *)
Record Outcome (A : Type) : Type := mkOutcome {
  value : Py.result A;
  after : MiniPlayer;
  trace : list Call
}.
Arguments mkOutcome {A} value after trace.
Arguments value {A} o.
Arguments after {A} o.
Arguments trace {A} o.

Definition M (A : Type) : Type := MiniPlayer -> Outcome A.

Definition ret {A : Type} (a : A) : M A :=
  fun w => mkOutcome (Py.Ok a) w [].

(** Sequencing: an exception skips the rest; what was done before it
    stays done. *)
Definition bind {A B : Type} (m : M A) (k : A -> M B) : M B :=
  fun w =>
    let o := m w in
    match value o with
    | Py.Ok a =>
        let o' := k a (after o) in
        mkOutcome (value o') (after o') (trace o ++ trace o')
    | Py.Raise e => mkOutcome (Py.Raise e) (after o) (trace o)
    end.

Declare Scope py_scope.
Delimit Scope py_scope with py.
Notation "x <- m ;; k" := (bind m (fun x => k))
  (at level 61, m at next level, right associativity) : py_scope.
Notation "m ;; k" := (bind m (fun _ => k))
  (at level 61, right associativity) : py_scope.
Local Open Scope py_scope.

Definition raise {A : Type} (e : Py.exn) : M A :=
  fun w => mkOutcome (Py.Raise e) w [].

(** [try: m  except e: h]. *)
Definition try_except {A : Type} (m : M A) (e : Py.exn) (h : M A) : M A :=
  fun w =>
    let o := m w in
    match value o with
    | Py.Ok a => o
    | Py.Raise e' =>
        if Py.exn_eqb e e'
        then let o' := h (after o) in
             mkOutcome (value o') (after o') (trace o ++ trace o')
        else o
    end.

(** A call that reads the object. *)
Definition call {A : Type} (c : Call) (f : MiniPlayer -> A) : M A :=
  fun w => mkOutcome (Py.Ok (f w)) w [c].

(** A call that changes the object. *)
Definition command (c : Call) (f : MiniPlayer -> MiniPlayer) : M unit :=
  fun w => mkOutcome (Py.Ok tt) (f w) [c].

(** A Python expression that may raise. *)
Definition eval {A : Type} (r : Py.result A) : M A :=
  fun w => mkOutcome r w [].

Definition when (b : bool) (m : M unit) : M unit :=
  if b then m else ret tt.

(* ================================================================== *)
(** ** The calls of the code, as monadic operations *)
(* ================================================================== *)

(** [self.<k>_mediaplayer.get_time()]. *)
Definition get_time (k : Track) : M Z :=
  call (GetTime k) (fun w => Vlc.time (mediaplayer k w)).

(** [self.<k>_mediaplayer.set_time(t)]. *)
Definition set_time (k : Track) (t : Z) : M unit :=
  command (SetTime k t)
    (fun w => with_mediaplayer k (Vlc.set_time t (mediaplayer k w)) w).

(** [self.<k>_mediaplayer.is_playing()]. *)
Definition is_playing (k : Track) : M bool :=
  call (IsPlaying k) (fun w => Vlc.playing (mediaplayer k w)).

(** [self.<k>_mediaplayer.play()]. *)
Definition play (k : Track) : M unit :=
  command (Play k) (fun w => with_mediaplayer k (Vlc.play (mediaplayer k w)) w).

(** [self.statusbar.showMessage(s)]. *)
Definition showMessage (s : string) : M unit :=
  command (ShowMessage s) (with_statusbar s).

(** [self.setWindowTitle(s)]. *)
Definition setWindowTitle (s : string) : M unit :=
  command (SetWindowTitle s) (with_windowTitle s).

(** [self.data_queue.get(block=False)]: the oldest item is removed and
    returned; on an empty queue [queue.Empty] is raised at once. *)
Definition data_queue_get_nowait : M Py.value :=
  fun w =>
    match data_queue w with
    | v :: q => mkOutcome (Py.Ok v) (with_data_queue q w) [QueueGet]
    | [] => mkOutcome (Py.Raise Py.Empty) w [QueueGet]
    end.

(** The producer's side, [data_queue.put(v)]: the item joins at the back. *)
Definition put (v : Py.value) (w : MiniPlayer) : MiniPlayer :=
  with_data_queue (data_queue w ++ [v]) w.

(** [self.instance.media_new(path)], assigned to [self.<k>_media]. *)
Definition media_new (k : Track) (path : string) : M Vlc.media_ref :=
  fun w =>
    let r := List.length (media_store w) in
    mkOutcome (Py.Ok r)
      (with_media k r
         (with_media_store (media_store w ++ [Vlc.mkMedia path false]) w))
      [MediaNew path].

(** [self.<k>_mediaplayer.set_media(m)]. *)
Definition set_media (k : Track) (m : Vlc.media_ref) : M unit :=
  command (SetMedia k m)
    (fun w => with_mediaplayer k (Vlc.set_media m (mediaplayer k w)) w).

Fixpoint store_update (ms : list Vlc.Media) (r : nat) (f : Vlc.Media -> Vlc.Media)
  : list Vlc.Media :=
  match ms, r with
  | [], _ => []
  | m :: ms', O => f m :: ms'
  | m :: ms', S r' => m :: store_update ms' r' f
  end.

(** [m.parse()]. *)
Definition parse (m : Vlc.media_ref) : M unit :=
  command (Parse m)
    (fun w => with_media_store (store_update (media_store w) m Vlc.parse) w).

(** ["{}".format(x)] for a string or [None]. *)
Definition format_braces (x : option string) : string :=
  match x with
  | Some s => s
  | None => "None"%string
  end.

(** [self.<k>_mediaplayer.set_xwindow(id)] and its two siblings. *)
Definition set_xwindow (k : Track) (id : Z) : M unit :=
  command (SetXWindow k id)
    (fun w => with_mediaplayer k (Vlc.set_drawable (Vlc.XWindow id) (mediaplayer k w)) w).

Definition set_hwnd (k : Track) (id : Z) : M unit :=
  command (SetHwnd k id)
    (fun w => with_mediaplayer k (Vlc.set_drawable (Vlc.Hwnd id) (mediaplayer k w)) w).

Definition set_nsobject (k : Track) (id : Z) : M unit :=
  command (SetNsobject k id)
    (fun w => with_mediaplayer k (Vlc.set_drawable (Vlc.NSObject id) (mediaplayer k w)) w).

(* ================================================================== *)
(** ** The methods of [MiniPlayer] *)
(* ================================================================== *)

(** [update_statusbar], lines 149-157. *)
Definition update_statusbar : M unit :=
  let mtime := QTime.make 0 0 0 0 in
  tv <- get_time Video ;;
  time_video <- eval (QTime.addMSecs mtime tv) ;;
  ta <- get_time Audio ;;
  time_audio <- eval (QTime.addMSecs mtime ta) ;;
  video_playing <- is_playing Video ;;
  if video_playing
  then showMessage ("Video: " ++ QTime.toString time_video)%string
  else
    audio_playing <- is_playing Audio ;;
    if audio_playing
    then showMessage ("Audio: " ++ QTime.toString time_audio)%string
    else ret tt.

(** [update_ui], lines 135-147: the poll tick. *)
Definition update_ui : M unit :=
  update_statusbar ;;
  got <- try_except (val <- data_queue_get_nowait ;; ret (Some val))
           Py.Empty (ret None) ;;
  match got with
  | None => ret tt
  | Some val =>
      val <- eval (Py.int val) ;;
      video_time <- get_time Video ;;
      when (negb (val =? video_time)) (set_time Video val) ;;
      audio_time <- get_time Audio ;;
      when (negb (val =? audio_time)) (set_time Audio val)
  end.

Section WithHost.

Variable host : Host.

(** [QtWidgets.QFileDialog.getOpenFileName(self, caption,
    os.path.expanduser('~'))]. *)
Definition ask_file (caption : string) : M (string * string) :=
  let dir := expanduser_home host in
  call (GetOpenFileName caption dir) (fun _ => getOpenFileName host caption dir).

(** [m.get_meta(e)]. *)
Definition media_get_meta (m : Vlc.media_ref) (e : Z) : M (option string) :=
  call (GetMeta m e)
    (fun w => match nth_error (media_store w) m with
              | Some md => get_meta host md e
              | None => None
              end).

(** [int(self.videoframe.winId())]: the attribute [videoframe] exists
    once [init_ui] has run; looking it up before raises
    [AttributeError]. *)
Definition videoframe_winId : M Z :=
  fun w =>
    match videoframe w with
    | Some _ => mkOutcome (Py.Ok (winId host)) w []
    | None => mkOutcome (Py.Raise Py.AttributeError) w []
    end.

(** [init_ui], lines 68-89, as far as the frame the video is drawn in. *)
Definition init_ui : M unit :=
  fun w =>
    let f := if String.eqb (platform_system host) "Darwin"
             then QMacCocoaViewContainer else QFrame in
    mkOutcome (Py.Ok tt) (with_videoframe f w) [].

(** [open_files], lines 91-133. *)
Definition open_files : M unit :=
  let dialog_txt := "Choose Video File"%string in
  filename_video <- ask_file dialog_txt ;;
  if negb (Py.truthy (fst filename_video)) then ret tt else
  let dialog_txt := "Choose Audio File"%string in
  filename_audio <- ask_file dialog_txt ;;
  if negb (Py.truthy (fst filename_audio)) then ret tt else
  video_media <- media_new Video (fst filename_video) ;;
  audio_media <- media_new Audio (fst filename_audio) ;;
  set_media Video video_media ;;
  set_media Audio audio_media ;;
  parse video_media ;;
  parse audio_media ;;
  title <- media_get_meta video_media 0 ;;
  setWindowTitle (format_braces title) ;;
  (if String.eqb (platform_system host) "Linux" then
     id <- videoframe_winId ;; set_xwindow Video id ;;
     id <- videoframe_winId ;; set_xwindow Audio id
   else if String.eqb (platform_system host) "Windows" then
     id <- videoframe_winId ;; set_hwnd Video id ;;
     id <- videoframe_winId ;; set_hwnd Audio id
   else if String.eqb (platform_system host) "Darwin" then
     id <- videoframe_winId ;; set_nsobject Video id ;;
     id <- videoframe_winId ;; set_nsobject Audio id
   else ret tt) ;;
  play Video ;;
  play Audio.

(** The attributes [__init__] starts from: no title, no message, no
    media, and the two empty players it creates. *)
Definition blank : MiniPlayer :=
  mkMiniPlayer EmptyString EmptyString None [] None None
    Vlc.media_player_new Vlc.media_player_new [].

(** [__init__], lines 40-66, given the queue's content; the timer it
    starts fires [update_ui]. *)
Definition init (q : list Py.value) : Outcome unit :=
  (setWindowTitle "Mini Player" ;;
   showMessage "Ready" ;;
   init_ui ;;
   open_files ;;
   (fun w => mkOutcome (Py.Ok tt) (with_data_queue q w) [])) blank.

End WithHost.

(** A run of the timer: [n] ticks one after the other, stopping at the
    first tick an exception escapes from. *)
Fixpoint ticks (n : nat) : M unit :=
  match n with
  | O => ret tt
  | S n' => update_ui ;; ticks n'
  end.

(* ================================================================== *)
(** ** Closed forms, and objects to run the code on *)
(* ================================================================== *)

(** The text [update_statusbar] renders a position as, where [addMSecs]
    takes the position. *)
Definition clock_text (ms : Z) : string :=
  match QTime.addMSecs (QTime.make 0 0 0 0) ms with
  | Py.Ok x => QTime.toString x
  | Py.Raise _ => EmptyString
  end.

(** Both positions fit a C [int], so that [addMSecs] takes them. *)
Definition positions_fit (w : MiniPlayer) : bool :=
  QTime.fits_c_int (Vlc.time (video_mediaplayer w)) &&
  QTime.fits_c_int (Vlc.time (audio_mediaplayer w)).

(** The status line as the specification words it: the video position
    when the video plays, else the audio position when the audio plays,
    else the message already shown. *)
Definition status_line (w : MiniPlayer) : string :=
  if Vlc.playing (video_mediaplayer w)
  then ("Video: " ++ clock_text (Vlc.time (video_mediaplayer w)))%string
  else if Vlc.playing (audio_mediaplayer w)
       then ("Audio: " ++ clock_text (Vlc.time (audio_mediaplayer w)))%string
       else statusbar w.

(** The calls [update_statusbar] makes when both positions fit. *)
Definition status_calls (w : MiniPlayer) : list Call :=
  [GetTime Video; GetTime Audio; IsPlaying Video] ++
  (if Vlc.playing (video_mediaplayer w)
   then [ShowMessage (status_line w)]
   else IsPlaying Audio ::
        (if Vlc.playing (audio_mediaplayer w)
         then [ShowMessage (status_line w)]
         else [])).

(** The calls [update_statusbar] makes: it stops at the first position
    [addMSecs] refuses. *)
Definition refresh_calls (w : MiniPlayer) : list Call :=
  if QTime.fits_c_int (Vlc.time (video_mediaplayer w)) then
    if QTime.fits_c_int (Vlc.time (audio_mediaplayer w)) then status_calls w
    else [GetTime Video; GetTime Audio]
  else [GetTime Video].

(** The seek of one player towards [t], from position [pos]. *)
Definition seek_calls (k : Track) (t pos : Z) : list Call :=
  if t =? pos then [] else [SetTime k t].

(** The object after both players were brought to [t]. *)
Definition seek_both (t : Z) (w : MiniPlayer) : MiniPlayer :=
  let w1 := if t =? Vlc.time (video_mediaplayer w) then w
            else with_mediaplayer Video (Vlc.set_time t (video_mediaplayer w)) w in
  if t =? Vlc.time (audio_mediaplayer w1) then w1
  else with_mediaplayer Audio (Vlc.set_time t (audio_mediaplayer w1)) w1.

Definition is_seek (c : Call) : bool :=
  match c with
  | SetTime _ _ => true
  | _ => false
  end.

Definition is_show (c : Call) : bool :=
  match c with
  | ShowMessage _ => true
  | _ => false
  end.

(** The cases of a tick, together: the refresh raises, or the queue is
    empty, or a value is taken and [int] takes it or not. *)
Definition tick_outcome (w : MiniPlayer) : Outcome unit :=
  let shown := with_statusbar (status_line w) w in
  if positions_fit w then
    match data_queue w with
    | [] => mkOutcome (Py.Ok tt) shown (status_calls w ++ [QueueGet])
    | v :: q =>
        match Py.int v with
        | Py.Ok t =>
            mkOutcome (Py.Ok tt) (seek_both t (with_data_queue q shown))
              (status_calls w ++ [QueueGet] ++
               [GetTime Video] ++ seek_calls Video t (Vlc.time (video_mediaplayer w)) ++
               [GetTime Audio] ++ seek_calls Audio t (Vlc.time (audio_mediaplayer w)))
        | Py.Raise e =>
            mkOutcome (Py.Raise e) (with_data_queue q shown) (status_calls w ++ [QueueGet])
        end
    end
  else mkOutcome (Py.Raise Py.OverflowError) w (refresh_calls w).

Definition is_get (c : Call) : bool :=
  match c with
  | QueueGet => true
  | _ => false
  end.

Section OpenFilesForms.

Variable host : Host.

(** The file names the two dialogs give. *)
Definition video_choice : string :=
  fst (getOpenFileName host "Choose Video File" (expanduser_home host)).

Definition audio_choice : string :=
  fst (getOpenFileName host "Choose Audio File" (expanduser_home host)).

Definition video_dialog : Call :=
  GetOpenFileName "Choose Video File" (expanduser_home host).

Definition audio_dialog : Call :=
  GetOpenFileName "Choose Audio File" (expanduser_home host).

(** The surface a player ends on: the frame's window id where the
    operating system is one of the three the code names, else what it had. *)
Definition attached (old : option Vlc.Drawable) : option Vlc.Drawable :=
  if String.eqb (platform_system host) "Linux" then Some (Vlc.XWindow (winId host))
  else if String.eqb (platform_system host) "Windows" then Some (Vlc.Hwnd (winId host))
  else if String.eqb (platform_system host) "Darwin" then Some (Vlc.NSObject (winId host))
  else old.

Definition attach_calls : list Call :=
  if String.eqb (platform_system host) "Linux"
  then [SetXWindow Video (winId host); SetXWindow Audio (winId host)]
  else if String.eqb (platform_system host) "Windows"
  then [SetHwnd Video (winId host); SetHwnd Audio (winId host)]
  else if String.eqb (platform_system host) "Darwin"
  then [SetNsobject Video (winId host); SetNsobject Audio (winId host)]
  else [].

(** The object after a successful [open_files]. *)
Definition opened (w : MiniPlayer) : MiniPlayer :=
  let n := List.length (media_store w) in
  let video := Vlc.mkMedia video_choice true in
  let audio := Vlc.mkMedia audio_choice true in
  mkMiniPlayer
    (format_braces (get_meta host video 0))
    (statusbar w) (videoframe w)
    (media_store w ++ [video; audio])
    (Some n) (Some (S n))
    (Vlc.mkMediaPlayer (Some n) (Vlc.time (video_mediaplayer w)) true
       (attached (Vlc.drawable (video_mediaplayer w))))
    (Vlc.mkMediaPlayer (Some (S n)) (Vlc.time (audio_mediaplayer w)) true
       (attached (Vlc.drawable (audio_mediaplayer w))))
    (data_queue w).

(** The calls of a successful [open_files] up to the title. *)
Definition title_calls (w : MiniPlayer) : list Call :=
  let n := List.length (media_store w) in
  [video_dialog; audio_dialog;
   MediaNew video_choice; MediaNew audio_choice;
   SetMedia Video n; SetMedia Audio (S n);
   Parse n; Parse (S n);
   GetMeta n 0;
   SetWindowTitle (format_braces (get_meta host (Vlc.mkMedia video_choice true) 0))].

Definition open_calls (w : MiniPlayer) : list Call :=
  title_calls w ++ attach_calls ++ [Play Video; Play Audio].

(** The operating system is one of the three [open_files] names. *)
Definition names_platform : bool :=
  String.eqb (platform_system host) "Linux" ||
  String.eqb (platform_system host) "Windows" ||
  String.eqb (platform_system host) "Darwin".

(** The object once [open_files] has set the title: the media made,
    bound and parsed; nothing attached or started yet. *)
Definition titled (w : MiniPlayer) : MiniPlayer :=
  let n := List.length (media_store w) in
  let video := Vlc.mkMedia video_choice true in
  let audio := Vlc.mkMedia audio_choice true in
  mkMiniPlayer
    (format_braces (get_meta host video 0))
    (statusbar w) (videoframe w)
    (media_store w ++ [video; audio])
    (Some n) (Some (S n))
    (Vlc.set_media n (video_mediaplayer w))
    (Vlc.set_media (S n) (audio_mediaplayer w))
    (data_queue w).

(** The ways [open_files] ends: a dialog cancelled; both files chosen and
    the frame found or not needed; both files chosen and the frame looked
    up in vain. *)
Definition open_outcome (w : MiniPlayer) : Outcome unit :=
  if negb (Py.truthy video_choice) then mkOutcome (Py.Ok tt) w [video_dialog]
  else if negb (Py.truthy audio_choice)
  then mkOutcome (Py.Ok tt) w [video_dialog; audio_dialog]
  else if negb names_platform ||
          match videoframe w with Some _ => true | None => false end
  then mkOutcome (Py.Ok tt) (opened w) (open_calls w)
  else mkOutcome (Py.Raise Py.AttributeError) (titled w) (title_calls w).

End OpenFilesForms.

Definition is_attach (c : Call) : bool :=
  match c with
  | SetXWindow _ _ | SetHwnd _ _ | SetNsobject _ _ => true
  | _ => false
  end.

(** Hosts to run the theorems on: a user who picks both files, on Linux
    and on a system the code does not name, and a user who picks the video
    and then cancels the audio dialog. *)
Definition title_of (m : Vlc.Media) (e : Z) : option string :=
  if Vlc.parsed m && (e =? 0) then Some ("Title of " ++ Vlc.mrl m)%string else None.

Definition picks_both (caption dir : string) : string * string :=
  if String.eqb caption "Choose Video File"
  then ("/home/u/clip.mp4", "All Files")%string
  else ("/home/u/clip.mp3", "All Files")%string.

Definition cancels_audio (caption dir : string) : string * string :=
  if String.eqb caption "Choose Video File"
  then ("/home/u/clip.mp4", "All Files")%string
  else (EmptyString, EmptyString).

Definition linux_host : Host := mkHost "Linux" "/home/u" picks_both 77 title_of.

Definition freebsd_host : Host := mkHost "FreeBSD" "/home/u" picks_both 77 title_of.

Definition hesitant_host : Host := mkHost "Linux" "/home/u" cancels_audio 77 title_of.

(** A concrete object to run the theorems on: both players bound and
    playing, at the given positions, with the given queue. *)
Definition playing_at (t : Z) : Vlc.MediaPlayer :=
  Vlc.mkMediaPlayer (Some 0%nat) t true None.

Definition demo (video_pos audio_pos : Z) (q : list Py.value) : MiniPlayer :=
  mkMiniPlayer "clip" "Ready" (Some QFrame)
    [Vlc.mkMedia "clip.mp4" true] (Some 0%nat) (Some 0%nat)
    (playing_at video_pos) (playing_at audio_pos) q.

Definition is_dialog (c : Call) : bool :=
  match c with
  | GetOpenFileName _ _ => true
  | _ => false
  end.

(** The object as [__init__] hands it to [open_files]: titled, the message
    "Ready" shown, the frame made by [init_ui], nothing opened. *)
Definition started (host : Host) : MiniPlayer :=
  mkMiniPlayer "Mini Player" "Ready"
    (Some (if String.eqb (platform_system host) "Darwin"
           then QMacCocoaViewContainer else QFrame))
    [] None None Vlc.media_player_new Vlc.media_player_new [].

(** Whether [int] takes a value and gives an integer that fits a C
    [int]. *)
Definition int_fits (v : Py.value) : bool :=
  match Py.int v with
  | Py.Ok t => QTime.fits_c_int t
  | Py.Raise _ => false
  end.

Definition has_frame (w : MiniPlayer) : bool :=
  match videoframe w with
  | Some _ => true
  | None => false
  end.

(** [main], lines 160-171: the queue is created empty and handed to the
    window, and the event loop then fires the timer; [n] is the number of
    firings looked at.  Nothing in the file puts a value on the queue. *)
Definition main (host : Host) (n : nat) : Outcome unit :=
  let i := init host [] in
  match value i with
  | Py.Ok _ =>
      let o := ticks n (after i) in
      mkOutcome (value o) (after o) (trace i ++ trace o)
  | Py.Raise e => i
  end.

(** A host whose media carry no title: [get_meta] answers [None]. *)
Definition untitled_host : Host :=
  mkHost "Windows" "C:/Users/u" picks_both 5 (fun _ _ => None).

(* ================================================================== *)
(** ** The builtins and the clock on examples *)
(* ================================================================== *)

Example int_of_str_plain : Py.int (Py.Str "5000") = Py.Ok 5000.
Proof. reflexivity. Qed.

Example int_of_str_padded : Py.int (Py.Str "  -1_000 ") = Py.Ok (-1000).
Proof. reflexivity. Qed.

Example int_of_str_bad :
  Py.int (Py.Str "1__0") = Py.Raise Py.ValueError /\
  Py.int (Py.Str "_1") = Py.Raise Py.ValueError /\
  Py.int (Py.Str "1_") = Py.Raise Py.ValueError /\
  Py.int (Py.Str "- 1") = Py.Raise Py.ValueError /\
  Py.int (Py.Str "1.5") = Py.Raise Py.ValueError /\
  Py.int (Py.Str "") = Py.Raise Py.ValueError.
Proof. repeat split; reflexivity. Qed.

(** Code 31 is no blank for [int]; the no-break space (160) and the
    next-line character (133) are; any other character from 128 on is
    refused. *)
Example int_of_str_blanks :
  Py.int (Py.Str (String (ascii_of_nat 31) "7")) = Py.Raise Py.ValueError /\
  Py.int (Py.Str (String (ascii_of_nat 28) "7")) = Py.Raise Py.ValueError /\
  Py.int (Py.Str (String (ascii_of_nat 160) "7")) = Py.Ok 7 /\
  Py.int (Py.Str (String (ascii_of_nat 133) "7")) = Py.Ok 7 /\
  Py.int (Py.Str (String "7" (String (ascii_of_nat 160) EmptyString))) = Py.Ok 7 /\
  Py.int (Py.Str (String "7" (String (ascii_of_nat 178) EmptyString))) =
    Py.Raise Py.ValueError.
Proof. repeat split; reflexivity. Qed.

Fixpoint ones (n : nat) : string :=
  match n with
  | O => EmptyString
  | S n' => String "1" (ones n')
  end.

Example int_of_str_digit_limit :
  Py.int (Py.Str (ones 4301)) = Py.Raise Py.ValueError /\
  Py.int (Py.Str (String "-" (ones 4301))) = Py.Raise Py.ValueError /\
  Py.int (Py.Str (ones 20)) = Py.Ok 11111111111111111111.
Proof.
  split; [vm_compute; reflexivity|split; vm_compute; reflexivity].
Qed.

Example int_of_float :
  Py.int (Py.Float (Py.Finite 5 (-1))) = Py.Ok 2 /\
  Py.int (Py.Float (Py.Finite (-5) (-1))) = Py.Ok (-2) /\
  Py.int (Py.Float (Py.Finite 3 4)) = Py.Ok 48.
Proof. repeat split; reflexivity. Qed.

Example qtime_5000 :
  QTime.addMSecs (QTime.make 0 0 0 0) 5000 = Py.Ok 5000 /\
  clock_text 5000 = "00:00:05"%string.
Proof. split; reflexivity. Qed.

Example qtime_wraps : clock_text (-1) = "23:59:59"%string.
Proof. reflexivity. Qed.

Example qtime_long : clock_text 45296789 = "12:34:56"%string.
Proof. reflexivity. Qed.

(** Outside a C [int] the position is refused; near its lower end the
    32-bit arithmetic gives a time that is not the position modulo a
    day. *)
Example qtime_c_int :
  QTime.addMSecs (QTime.make 0 0 0 0) 2147483648 = Py.Raise Py.OverflowError /\
  QTime.addMSecs (QTime.make 0 0 0 0) (-2147483649) = Py.Raise Py.OverflowError /\
  clock_text 2147483647 = "20:31:23"%string /\
  clock_text (-2061083648) = "20:31:23"%string /\
  clock_text (-2061083648 + 86400000) = "03:28:36"%string /\
  clock_text (-2061083647) = "03:28:36"%string.
Proof. repeat split; reflexivity. Qed.

(* ================================================================== *)
(** ** One tick, computed *)
(* ================================================================== *)

Lemma with_statusbar_same (w : MiniPlayer) : with_statusbar (statusbar w) w = w.
Proof. destruct w; reflexivity. Qed.

Lemma clock_text_fits (ms : Z) :
  QTime.fits_c_int ms = true ->
  clock_text ms = QTime.toString (QTime.addMSecs_int (QTime.make 0 0 0 0) ms).
Proof. intros H. unfold clock_text, QTime.addMSecs. now rewrite H. Qed.

Lemma positions_fit_true (w : MiniPlayer) :
  positions_fit w = true <->
  QTime.fits_c_int (Vlc.time (video_mediaplayer w)) = true /\
  QTime.fits_c_int (Vlc.time (audio_mediaplayer w)) = true.
Proof. unfold positions_fit. apply andb_true_iff. Qed.

Lemma update_statusbar_run (w : MiniPlayer) :
  update_statusbar w =
  if positions_fit w
  then mkOutcome (Py.Ok tt) (with_statusbar (status_line w) w) (status_calls w)
  else mkOutcome (Py.Raise Py.OverflowError) w (refresh_calls w).
Proof.
  unfold update_statusbar, positions_fit, refresh_calls, status_calls,
    status_line, bind, get_time, is_playing, showMessage, call, command,
    eval, ret, QTime.addMSecs.
  cbv beta iota zeta delta [value after trace mediaplayer].
  destruct (QTime.fits_c_int (Vlc.time (video_mediaplayer w))) eqn:Ev;
    cbv beta iota zeta delta [value after trace andb]; [|reflexivity].
  destruct (QTime.fits_c_int (Vlc.time (audio_mediaplayer w))) eqn:Ea;
    cbv beta iota zeta delta [value after trace]; [|reflexivity].
  rewrite (clock_text_fits _ Ev), (clock_text_fits _ Ea).
  destruct (Vlc.playing (video_mediaplayer w));
    cbv beta iota zeta delta [value after trace]; cbn [app]; [reflexivity|].
  destruct (Vlc.playing (audio_mediaplayer w));
    cbv beta iota zeta delta [value after trace]; cbn [app]; [reflexivity|].
  now rewrite with_statusbar_same.
Qed.

Lemma status_calls_no_seek (w : MiniPlayer) :
  filter is_seek (status_calls w) = [].
Proof.
  unfold status_calls.
  destruct (Vlc.playing (video_mediaplayer w)); cbn; [reflexivity|].
  destruct (Vlc.playing (audio_mediaplayer w)); reflexivity.
Qed.

Lemma status_calls_no_get (w : MiniPlayer) : ~ In QueueGet (status_calls w).
Proof.
  unfold status_calls.
  destruct (Vlc.playing (video_mediaplayer w)); cbn;
    [|destruct (Vlc.playing (audio_mediaplayer w)); cbn];
    intuition discriminate.
Qed.

Lemma status_calls_no_get_filter (w : MiniPlayer) :
  filter is_get (status_calls w) = [].
Proof.
  unfold status_calls.
  destruct (Vlc.playing (video_mediaplayer w)); cbn; [reflexivity|].
  destruct (Vlc.playing (audio_mediaplayer w)); reflexivity.
Qed.

(** What a refresh that raises has called: no seek, no get, no message. *)
Lemma refresh_calls_overflow (w : MiniPlayer) :
  positions_fit w = false ->
  filter is_seek (refresh_calls w) = [] /\
  filter is_get (refresh_calls w) = [] /\
  filter is_show (refresh_calls w) = [].
Proof.
  unfold positions_fit, refresh_calls.
  destruct (QTime.fits_c_int (Vlc.time (video_mediaplayer w)));
    destruct (QTime.fits_c_int (Vlc.time (audio_mediaplayer w)));
    cbn; intros H; try discriminate; repeat split; reflexivity.
Qed.

Lemma update_ui_run (w : MiniPlayer) : update_ui w = tick_outcome w.
Proof.
  unfold update_ui, tick_outcome, bind at 1. rewrite update_statusbar_run.
  destruct (positions_fit w); cbv beta iota zeta delta [value after trace];
    [|reflexivity].
  unfold bind, try_except, data_queue_get_nowait, eval, seek_both, seek_calls,
    when, get_time, set_time, call, command, ret.
  destruct w as [ti sb vf ms vm am vp ap dq]. destruct dq as [|v q]; cbn.
  - reflexivity.
  - destruct (Py.int v) as [t|e]; cbn; [|reflexivity].
    destruct (t =? Vlc.time vp); cbn; destruct (t =? Vlc.time ap); cbn;
      reflexivity.
Qed.

(** A tick whose refresh raises. *)
Lemma update_ui_overflow (w : MiniPlayer) :
  positions_fit w = false ->
  update_ui w = mkOutcome (Py.Raise Py.OverflowError) w (refresh_calls w).
Proof. intros H. rewrite update_ui_run. unfold tick_outcome. now rewrite H. Qed.

(** A tick that finds the queue empty. *)
Lemma update_ui_empty (w : MiniPlayer) :
  positions_fit w = true ->
  data_queue w = [] ->
  update_ui w =
  mkOutcome (Py.Ok tt) (with_statusbar (status_line w) w)
    (status_calls w ++ [QueueGet]).
Proof.
  intros Hfit Hq. rewrite update_ui_run. unfold tick_outcome.
  now rewrite Hfit, Hq.
Qed.

(** A tick that takes [v] off the queue, [int(v)] being [t]. *)
Lemma update_ui_dequeue (w : MiniPlayer) (v : Py.value) (q : list Py.value) (t : Z) :
  positions_fit w = true ->
  data_queue w = v :: q ->
  Py.int v = Py.Ok t ->
  update_ui w =
  mkOutcome (Py.Ok tt)
    (seek_both t (with_data_queue q (with_statusbar (status_line w) w)))
    (status_calls w ++ [QueueGet] ++
     [GetTime Video] ++ seek_calls Video t (Vlc.time (video_mediaplayer w)) ++
     [GetTime Audio] ++ seek_calls Audio t (Vlc.time (audio_mediaplayer w))).
Proof.
  intros Hfit Hq Hint. rewrite update_ui_run. unfold tick_outcome.
  now rewrite Hfit, Hq, Hint.
Qed.

(** A tick that takes [v] off the queue, [int(v)] raising [e]. *)
Lemma update_ui_dequeue_raise (w : MiniPlayer) (v : Py.value) (q : list Py.value) (e : Py.exn) :
  positions_fit w = true ->
  data_queue w = v :: q ->
  Py.int v = Py.Raise e ->
  update_ui w =
  mkOutcome (Py.Raise e)
    (with_data_queue q (with_statusbar (status_line w) w))
    (status_calls w ++ [QueueGet]).
Proof.
  intros Hfit Hq Hint. rewrite update_ui_run. unfold tick_outcome.
  now rewrite Hfit, Hq, Hint.
Qed.

Lemma status_calls_not_seek (w : MiniPlayer) (k : Track) (x : Z) :
  ~ In (SetTime k x) (status_calls w).
Proof.
  unfold status_calls.
  destruct (Vlc.playing (video_mediaplayer w)); cbn;
    [|destruct (Vlc.playing (audio_mediaplayer w)); cbn];
    intuition discriminate.
Qed.

Lemma in_seek_calls (k k' : Track) (t pos x : Z) :
  In (SetTime k x) (seek_calls k' t pos) <-> k = k' /\ x = t /\ pos <> t.
Proof.
  unfold seek_calls. destruct (Z.eqb_spec t pos) as [E|N]; cbn.
  - split; [tauto|]. intros (_ & _ & H). now subst.
  - split.
    + intros [H|[]]. injection H as -> ->. repeat split; congruence.
    + intros (-> & -> & _). now left.
Qed.

(** Which seeks a tick issues once it has taken a value off the queue. *)
Lemma seek_in_tick (w : MiniPlayer) (v : Py.value) (q : list Py.value) (t : Z) :
  positions_fit w = true ->
  data_queue w = v :: q ->
  Py.int v = Py.Ok t ->
  forall (k : Track) (x : Z),
    In (SetTime k x) (trace (update_ui w)) <->
    x = t /\ Vlc.time (mediaplayer k w) <> t.
Proof.
  intros Hfit Hq Hint k x. rewrite (update_ui_dequeue w v q t Hfit Hq Hint).
  cbn [trace]. rewrite !in_app_iff, !in_seek_calls.
  pose proof (status_calls_not_seek w k x) as Hs.
  destruct k; cbn [mediaplayer In]; split.
  - intros [H|[[H|[]]|[[H|[]]|[H|[[H|[]]|H]]]]]; try discriminate; try tauto.
    destruct H as (H & _); discriminate.
  - intros (-> & H). right. right. right. left. tauto.
  - intros [H|[[H|[]]|[[H|[]]|[H|[[H|[]]|H]]]]]; try discriminate; try tauto.
    destruct H as (H & _); discriminate.
  - intros (-> & H). do 5 right. tauto.
Qed.

Lemma seek_both_time (t : Z) (w : MiniPlayer) (k : Track) :
  Vlc.time (mediaplayer k (seek_both t w)) = t.
Proof.
  unfold seek_both.
  destruct (Z.eqb_spec t (Vlc.time (video_mediaplayer w))) as [Ev|Nv]; cbn;
    destruct (Z.eqb_spec t (Vlc.time (audio_mediaplayer w))) as [Ea|Na];
    destruct k; cbn; congruence.
Qed.

Lemma seek_both_rest (t : Z) (w : MiniPlayer) :
  statusbar (seek_both t w) = statusbar w /\
  windowTitle (seek_both t w) = windowTitle w /\
  data_queue (seek_both t w) = data_queue w.
Proof.
  unfold seek_both.
  destruct (t =? Vlc.time (video_mediaplayer w)); cbn;
    destruct (t =? Vlc.time (audio_mediaplayer w)); cbn; auto.
Qed.

Lemma seek_both_frame (t : Z) (w : MiniPlayer) :
  videoframe (seek_both t w) = videoframe w /\
  media_store (seek_both t w) = media_store w /\
  video_media (seek_both t w) = video_media w /\
  audio_media (seek_both t w) = audio_media w /\
  (forall k : Track,
      Vlc.media (mediaplayer k (seek_both t w)) = Vlc.media (mediaplayer k w) /\
      Vlc.playing (mediaplayer k (seek_both t w)) = Vlc.playing (mediaplayer k w) /\
      Vlc.drawable (mediaplayer k (seek_both t w)) = Vlc.drawable (mediaplayer k w)).
Proof.
  unfold seek_both.
  destruct (t =? Vlc.time (video_mediaplayer w)); cbn;
    destruct (t =? Vlc.time (audio_mediaplayer w)); cbn;
    repeat split; destruct k; reflexivity.
Qed.

Lemma filter_seek_calls (k : Track) (t pos : Z) :
  filter is_seek (seek_calls k t pos) = seek_calls k t pos.
Proof. unfold seek_calls. now destruct (t =? pos). Qed.

Lemma seek_calls_no_get (k : Track) (t pos : Z) :
  filter is_get (seek_calls k t pos) = [].
Proof. unfold seek_calls. now destruct (t =? pos). Qed.

Lemma seek_calls_no_show (k : Track) (t pos : Z) :
  filter is_show (seek_calls k t pos) = [].
Proof. unfold seek_calls. now destruct (t =? pos). Qed.

(** The seeks of a tick that took a value, in order. *)
Lemma seeks_of_tick (w : MiniPlayer) (v : Py.value) (q : list Py.value) (t : Z) :
  positions_fit w = true ->
  data_queue w = v :: q ->
  Py.int v = Py.Ok t ->
  filter is_seek (trace (update_ui w)) =
  seek_calls Video t (Vlc.time (video_mediaplayer w)) ++
  seek_calls Audio t (Vlc.time (audio_mediaplayer w)).
Proof.
  intros Hfit Hq Hint. rewrite (update_ui_dequeue w v q t Hfit Hq Hint).
  cbn [trace].
  rewrite !filter_app, status_calls_no_seek, !filter_seek_calls. reflexivity.
Qed.

(** The queue after a tick, the gets of a tick, the seeks of a tick
    that took nothing. *)
Lemma update_ui_queue_after (w : MiniPlayer) :
  data_queue (after (update_ui w)) =
  if positions_fit w then tl (data_queue w) else data_queue w.
Proof.
  rewrite update_ui_run. unfold tick_outcome.
  destruct (positions_fit w); [|reflexivity].
  destruct (data_queue w) as [|v q] eqn:Hq; [|destruct (Py.int v) as [t|e]];
    cbn [after tl].
  - destruct w; cbn in *. exact Hq.
  - now destruct (seek_both_rest t
      (with_data_queue q (with_statusbar (status_line w) w))) as (_ & _ & ->).
  - reflexivity.
Qed.

Lemma update_ui_gets (w : MiniPlayer) :
  filter is_get (trace (update_ui w)) =
  if positions_fit w then [QueueGet] else [].
Proof.
  rewrite update_ui_run. unfold tick_outcome.
  destruct (positions_fit w) eqn:Hfit.
  - destruct (data_queue w) as [|v q]; [|destruct (Py.int v) as [t|e]];
      cbn [trace];
      rewrite !filter_app, status_calls_no_get_filter, ?seek_calls_no_get;
      reflexivity.
  - cbn [trace]. now destruct (refresh_calls_overflow w Hfit) as (_ & -> & _).
Qed.

Lemma update_ui_statusbar (w : MiniPlayer) :
  statusbar (after (update_ui w)) =
  if positions_fit w then status_line w else statusbar w.
Proof.
  rewrite update_ui_run. unfold tick_outcome.
  destruct (positions_fit w); [|reflexivity].
  destruct (data_queue w) as [|v q]; [reflexivity|].
  destruct (Py.int v) as [t|e]; cbn [after]; [|reflexivity].
  destruct (seek_both_rest t
    (with_data_queue q (with_statusbar (status_line w) w))) as (-> & _).
  reflexivity.
Qed.

Lemma status_calls_shown (w : MiniPlayer) :
  filter is_show (status_calls w) =
  if Vlc.playing (video_mediaplayer w) || Vlc.playing (audio_mediaplayer w)
  then [ShowMessage (status_line w)] else [].
Proof.
  unfold status_calls.
  destruct (Vlc.playing (video_mediaplayer w)); cbn; [reflexivity|].
  destruct (Vlc.playing (audio_mediaplayer w)); reflexivity.
Qed.

Lemma update_ui_shown (w : MiniPlayer) :
  filter is_show (trace (update_ui w)) =
  if positions_fit w then filter is_show (status_calls w) else [].
Proof.
  rewrite update_ui_run. unfold tick_outcome.
  destruct (positions_fit w) eqn:Hfit.
  - destruct (data_queue w) as [|v q]; [|destruct (Py.int v) as [t|e]];
      cbn [trace]; rewrite !filter_app, ?seek_calls_no_show; cbn;
      now rewrite app_nil_r.
  - cbn [trace]. now destruct (refresh_calls_overflow w Hfit) as (_ & _ & ->).
Qed.

(* ================================================================== *)
(** ** The poll tick: seeking *)
(* ================================================================== *)

(** A tick reaches the queue exactly when both positions fit a C [int]:
    else the refresh has raised before. *)
Lemma update_ui_reaches_queue_iff (w : MiniPlayer) :
  In QueueGet (trace (update_ui w)) <-> positions_fit w = true.
Proof.
  pose proof (update_ui_gets w) as Hg.
  destruct (positions_fit w); split; intros H; try reflexivity.
  - assert (Hin : In QueueGet (filter is_get (trace (update_ui w))))
      by (rewrite Hg; now left).
    apply filter_In in Hin. tauto.
  - assert (Hin : In QueueGet (filter is_get (trace (update_ui w))))
      by (apply filter_In; split; [exact H|reflexivity]).
    rewrite Hg in Hin. destruct Hin.
  - discriminate.
Qed.

(** C1.  A tick that dequeues a value whose [int] is [t] - it reaches the
    queue when both positions fit a C [int] - seeks the video player to
    [t] exactly when the video position differs from [t], and seeks the
    audio player to [t] exactly when the audio position differs from [t];
    each decision looks at its own player only, no other seek is issued,
    and afterwards both players are at [t]. *)
Theorem update_ui_seeks_each_player_iff_its_position_differs :
  forall (w : MiniPlayer) (v : Py.value) (q : list Py.value) (t : Z),
    positions_fit w = true ->
    data_queue w = v :: q ->
    Py.int v = Py.Ok t ->
    let o := update_ui w in
    (In (SetTime Video t) (trace o) <-> Vlc.time (video_mediaplayer w) <> t) /\
    (In (SetTime Audio t) (trace o) <-> Vlc.time (audio_mediaplayer w) <> t) /\
    (forall (k : Track) (x : Z), In (SetTime k x) (trace o) -> x = t) /\
    Vlc.time (video_mediaplayer (after o)) = t /\
    Vlc.time (audio_mediaplayer (after o)) = t.
Proof.
  intros w v q t Hfit Hq Hint o.
  pose proof (seek_in_tick w v q t Hfit Hq Hint) as Hseek.
  repeat split.
  - intros H. now apply (Hseek Video t) in H.
  - intros H. now apply (Hseek Video t).
  - intros H. now apply (Hseek Audio t) in H.
  - intros H. now apply (Hseek Audio t).
  - intros k x H. now apply (Hseek k x) in H.
  - subst o. rewrite (update_ui_dequeue w v q t Hfit Hq Hint). cbn [after].
    apply (seek_both_time t _ Video).
  - subst o. rewrite (update_ui_dequeue w v q t Hfit Hq Hint). cbn [after].
    apply (seek_both_time t _ Audio).
Qed.

(** Video already at 5000, audio at 0, 5000 queued: the audio player
    alone is sought. *)
Lemma update_ui_seeks_each_player_iff_its_position_differs_witness :
  let w := demo 5000 0 [Py.Int 5000] in
  let o := update_ui w in
  positions_fit w = true /\
  data_queue w = [Py.Int 5000] /\
  Py.int (Py.Int 5000) = Py.Ok 5000 /\
  (In (SetTime Video 5000) (trace o) <-> Vlc.time (video_mediaplayer w) <> 5000) /\
  (In (SetTime Audio 5000) (trace o) <-> Vlc.time (audio_mediaplayer w) <> 5000) /\
  (forall (k : Track) (x : Z), In (SetTime k x) (trace o) -> x = 5000) /\
  Vlc.time (video_mediaplayer (after o)) = 5000 /\
  Vlc.time (audio_mediaplayer (after o)) = 5000.
Proof.
  intros w o. split; [reflexivity|]. split; [reflexivity|]. split; [reflexivity|].
  exact (update_ui_seeks_each_player_iff_its_position_differs
           (demo 5000 0 [Py.Int 5000]) (Py.Int 5000) [] 5000
           eq_refl eq_refl eq_refl).
Defined.

Example audio_only_seek :
  filter is_seek (trace (update_ui (demo 5000 0 [Py.Int 5000]))) = [SetTime Audio 5000].
Proof. reflexivity. Qed.

(** C2.  A tick that finds the queue empty - it reaches the queue when
    both positions fit a C [int] - returns normally, issues no [set_time]
    to either player, and leaves both players (their positions in
    particular) and the empty queue as they were. *)
Theorem update_ui_empty_queue_seeks_nothing :
  forall w : MiniPlayer,
    positions_fit w = true ->
    data_queue w = [] ->
    let o := update_ui w in
    value o = Py.Ok tt /\
    (forall (k : Track) (x : Z), ~ In (SetTime k x) (trace o)) /\
    video_mediaplayer (after o) = video_mediaplayer w /\
    audio_mediaplayer (after o) = audio_mediaplayer w /\
    Vlc.time (video_mediaplayer (after o)) = Vlc.time (video_mediaplayer w) /\
    Vlc.time (audio_mediaplayer (after o)) = Vlc.time (audio_mediaplayer w) /\
    data_queue (after o) = [].
Proof.
  intros w Hfit Hq o. subst o. rewrite (update_ui_empty w Hfit Hq).
  cbn [value after trace].
  split; [reflexivity|]. split.
  - intros k x H. apply in_app_iff in H. destruct H as [H|[H|[]]].
    + exact (status_calls_not_seek w k x H).
    + discriminate H.
  - destruct w; cbn in *. now subst.
Qed.

Lemma update_ui_empty_queue_seeks_nothing_witness :
  let w := demo 1234 1250 [] in
  let o := update_ui w in
  (positions_fit w = true /\ data_queue w = []) /\
  value o = Py.Ok tt /\
  (forall (k : Track) (x : Z), ~ In (SetTime k x) (trace o)) /\
  video_mediaplayer (after o) = video_mediaplayer w /\
  audio_mediaplayer (after o) = audio_mediaplayer w /\
  Vlc.time (video_mediaplayer (after o)) = Vlc.time (video_mediaplayer w) /\
  Vlc.time (audio_mediaplayer (after o)) = Vlc.time (audio_mediaplayer w) /\
  data_queue (after o) = [].
Proof.
  intros w o. split; [split; reflexivity|].
  exact (update_ui_empty_queue_seeks_nothing (demo 1234 1250 []) eq_refl eq_refl).
Defined.

(** C3, as the code has it.  A tick takes at most one item.  When both
    positions fit a C [int] it asks the queue once and takes the oldest
    item if there is one (also when [int] then refuses it), leaving the
    items behind it in their order; when a position does not fit, the
    refresh raises [OverflowError] before the queue is asked and nothing is
    taken. *)
Theorem update_ui_takes_at_most_one_item :
  forall w : MiniPlayer,
    let o := update_ui w in
    (data_queue (after o) = data_queue w \/
     data_queue (after o) = tl (data_queue w)) /\
    (List.length (data_queue w) <= S (List.length (data_queue (after o))))%nat /\
    (positions_fit w = true ->
     data_queue (after o) = tl (data_queue w) /\
     match data_queue w with
     | [] => data_queue (after o) = []
     | _ :: rest => data_queue (after o) = rest
     end /\
     filter is_get (trace o) = [QueueGet]) /\
    (positions_fit w = false ->
     value o = Py.Raise Py.OverflowError /\
     data_queue (after o) = data_queue w /\
     filter is_get (trace o) = []).
Proof.
  intros w o. subst o.
  rewrite update_ui_queue_after, update_ui_gets.
  destruct (positions_fit w) eqn:Hfit.
  - split; [now right|]. split; [destruct (data_queue w); cbn; lia|].
    split; [|discriminate]. intros _.
    split; [reflexivity|]. split; [|reflexivity].
    destruct (data_queue w); reflexivity.
  - split; [now left|]. split; [lia|]. split; [discriminate|]. intros _.
    rewrite (update_ui_overflow w Hfit). repeat split; reflexivity.
Qed.

(** C3 as stated fails where a position does not fit a C [int]: the
    queue is not empty, yet the tick takes nothing from it. *)
Lemma update_ui_overflow_takes_nothing :
  let w := demo 2147483648 0 [Py.Int 5000] in
  let o := update_ui w in
  data_queue w = [Py.Int 5000] /\
  value o = Py.Raise Py.OverflowError /\
  data_queue (after o) = [Py.Int 5000] /\
  filter is_get (trace o) = [] /\
  trace o = [GetTime Video].
Proof. cbv zeta. repeat split; reflexivity. Qed.

Example backlog_stays_in_order :
  data_queue (after (update_ui (demo 0 0 [Py.Int 10; Py.Int 20; Py.Int 30]))) =
  [Py.Int 20; Py.Int 30].
Proof. reflexivity. Qed.

(* ================================================================== *)
(** ** The poll tick: the status line *)
(* ================================================================== *)

(** C5, as the code has it.  On a tick where both positions fit a C
    [int] (and in [update_statusbar] itself) the status text becomes
    "Video: " and the formatted video position when the video player is
    playing, whatever the audio player does; else "Audio: " and the
    formatted audio position when the audio player is playing; else it
    stays the message shown before, and no message is shown at all.  Where
    a position does not fit, [addMSecs] raises [OverflowError] before a
    playing state is read: no message is shown and the text stays. *)
Theorem update_ui_status_line_video_then_audio :
  forall w : MiniPlayer,
    let text :=
      if Vlc.playing (video_mediaplayer w)
      then ("Video: " ++ clock_text (Vlc.time (video_mediaplayer w)))%string
      else if Vlc.playing (audio_mediaplayer w)
           then ("Audio: " ++ clock_text (Vlc.time (audio_mediaplayer w)))%string
           else statusbar w in
    let shown :=
      if Vlc.playing (video_mediaplayer w) || Vlc.playing (audio_mediaplayer w)
      then [ShowMessage text] else [] in
    (positions_fit w = true ->
     statusbar (after (update_statusbar w)) = text /\
     filter is_show (trace (update_statusbar w)) = shown /\
     statusbar (after (update_ui w)) = text /\
     filter is_show (trace (update_ui w)) = shown) /\
    (positions_fit w = false ->
     value (update_statusbar w) = Py.Raise Py.OverflowError /\
     value (update_ui w) = Py.Raise Py.OverflowError /\
     statusbar (after (update_statusbar w)) = statusbar w /\
     filter is_show (trace (update_statusbar w)) = [] /\
     statusbar (after (update_ui w)) = statusbar w /\
     filter is_show (trace (update_ui w)) = []).
Proof.
  intros w text shown.
  rewrite update_ui_statusbar, update_ui_shown, update_statusbar_run.
  split; intros Hfit; rewrite ?Hfit; cbn [value after trace].
  - rewrite status_calls_shown. repeat split; reflexivity.
  - rewrite (update_ui_overflow w Hfit).
    destruct (refresh_calls_overflow w Hfit) as (_ & _ & ->).
    repeat split; reflexivity.
Qed.

(** C5 as stated fails where a position does not fit a C [int]: the
    video player is playing, yet the tick shows no message and the text
    stays what it was. *)
Lemma update_ui_overflow_shows_nothing :
  let w := demo 2147483648 0 [] in
  let o := update_ui w in
  Vlc.playing (video_mediaplayer w) = true /\
  value o = Py.Raise Py.OverflowError /\
  statusbar (after o) = "Ready"%string /\
  statusbar (after o) <>
    ("Video: " ++ clock_text (Vlc.time (video_mediaplayer w)))%string /\
  filter is_show (trace o) = [].
Proof.
  cbv zeta. split; [reflexivity|]. split; [reflexivity|].
  split; [reflexivity|]. split; [discriminate|reflexivity].
Qed.

Example status_prefers_video :
  statusbar (after (update_ui (demo 61000 5000 []))) = "Video: 00:01:01"%string.
Proof. reflexivity. Qed.

Example status_falls_back_to_audio :
  let w := with_mediaplayer Video (Vlc.mkMediaPlayer (Some 0%nat) 61000 false None)
             (demo 61000 5000 []) in
  statusbar (after (update_ui w)) = "Audio: 00:00:05"%string.
Proof. reflexivity. Qed.

Example status_kept_when_nothing_plays :
  let idle := Vlc.mkMediaPlayer (Some 0%nat) 61000 false None in
  let w := with_mediaplayer Audio idle (with_mediaplayer Video idle (demo 0 0 [])) in
  statusbar (after (update_ui w)) = "Ready"%string /\
  filter is_show (trace (update_ui w)) = [].
Proof. split; reflexivity. Qed.

(** The audio position is handed to [addMSecs] before the video player's
    state is read: an audio position that does not fit stops the refresh
    although the video player is playing within range. *)
Example audio_overflow_stops_video_line :
  let o := update_ui (demo 1000 2147483648 [Py.Int 5]) in
  value o = Py.Raise Py.OverflowError /\
  trace o = [GetTime Video; GetTime Audio] /\
  statusbar (after o) = "Ready"%string.
Proof. repeat split; reflexivity. Qed.

(** C10, as the code has it.  In every tick the status refresh comes
    first: the calls of [update_statusbar] are made before anything else.
    When both positions fit a C [int] the refresh returns, the queue is
    asked next, and nothing after that shows a message: the line is
    refreshed on an empty queue too, and on a tick that seeks it is the
    text of the positions read before the seek, not of the position
    sought.  When a position does not fit, the refresh raises
    [OverflowError] and the tick ends there, the queue unasked. *)
Theorem update_ui_refreshes_status_before_polling :
  forall w : MiniPlayer,
    let s := update_statusbar w in
    let o := update_ui w in
    (exists rest : list Call,
        trace o = trace s ++ rest /\
        ~ In QueueGet (trace s) /\
        filter is_seek (trace s) = [] /\
        filter is_show rest = [] /\
        (positions_fit w = true ->
         value s = Py.Ok tt /\ hd_error rest = Some QueueGet) /\
        (positions_fit w = false ->
         value s = Py.Raise Py.OverflowError /\
         value o = Py.Raise Py.OverflowError /\
         rest = [])) /\
    statusbar (after o) = statusbar (after s) /\
    (positions_fit w = true -> statusbar (after o) = status_line w) /\
    (forall (v : Py.value) (q : list Py.value) (t : Z),
        positions_fit w = true ->
        data_queue w = v :: q ->
        Py.int v = Py.Ok t ->
        Vlc.playing (video_mediaplayer w) = true ->
        statusbar (after o) =
          ("Video: " ++ clock_text (Vlc.time (video_mediaplayer w)))%string /\
        Vlc.time (video_mediaplayer (after o)) = t).
Proof.
  intros w s o. subst s o. rewrite update_ui_statusbar, update_statusbar_run.
  split; [|split; [|split]].
  - rewrite update_ui_run. unfold tick_outcome.
    destruct (positions_fit w) eqn:Hfit.
    + destruct (data_queue w) as [|v q]; [|destruct (Py.int v) as [t|e]];
        cbn [value trace].
      * exists [QueueGet].
        repeat split; auto using status_calls_no_get, status_calls_no_seek;
          discriminate.
      * eexists. split; [reflexivity|].
        repeat split; auto using status_calls_no_get, status_calls_no_seek;
          try discriminate.
        rewrite !filter_app, !seek_calls_no_show. reflexivity.
      * exists [QueueGet].
        repeat split; auto using status_calls_no_get, status_calls_no_seek;
          discriminate.
    + cbn [value trace]. exists [].
      destruct (refresh_calls_overflow w Hfit) as (Hs & Hg & _).
      split; [now rewrite app_nil_r|]. split.
      * intros Hin.
        assert (Hin' : In QueueGet (filter is_get (refresh_calls w)))
          by (apply filter_In; split; [exact Hin|reflexivity]).
        now rewrite Hg in Hin'.
      * repeat split; auto; discriminate.
  - destruct (positions_fit w); [|reflexivity]. destruct w; reflexivity.
  - intros ->. reflexivity.
  - intros v q t Hfit Hq Hint Hplay. rewrite Hfit. split.
    + unfold status_line. now rewrite Hplay.
    + rewrite (update_ui_dequeue w v q t Hfit Hq Hint). cbn [after].
      apply (seek_both_time t _ Video).
Qed.

(** C10 as stated fails where a position does not fit a C [int]: on an
    empty queue with the video playing the tick refreshes nothing and
    never asks the queue. *)
Lemma update_ui_overflow_neither_refreshes_nor_polls :
  let w := demo 2147483648 0 [] in
  let o := update_ui w in
  data_queue w = [] /\
  Vlc.playing (video_mediaplayer w) = true /\
  value o = Py.Raise Py.OverflowError /\
  statusbar (after o) = statusbar w /\
  filter is_show (trace o) = [] /\
  ~ In QueueGet (trace o).
Proof.
  cbv zeta. repeat split; try reflexivity.
  cbn. intros [H|[]]. discriminate H.
Qed.

Example status_shows_position_before_seek :
  let o := update_ui (demo 0 0 [Py.Int 5000]) in
  statusbar (after o) = "Video: 00:00:00"%string /\
  Vlc.time (video_mediaplayer (after o)) = 5000.
Proof. split; reflexivity. Qed.

(* ================================================================== *)
(** ** The poll tick: exact match, two ticks in a row, unchecked values *)
(* ================================================================== *)

(** C6.  On a tick that dequeues [t] (both positions fitting a C [int],
    so that the queue is reached): when the video position equals [t]
    exactly, no [set_time] goes to the video player; equality is the only
    thing that holds the seek back: a position off by any [d <> 0], one
    millisecond either way included, is sought to [t]. *)
Theorem update_ui_video_seek_held_back_only_by_equality :
  forall (w : MiniPlayer) (v : Py.value) (q : list Py.value) (t : Z),
    positions_fit w = true ->
    data_queue w = v :: q ->
    Py.int v = Py.Ok t ->
    let o := update_ui w in
    (Vlc.time (video_mediaplayer w) = t ->
     forall x : Z, ~ In (SetTime Video x) (trace o)) /\
    (forall d : Z, d <> 0 ->
       Vlc.time (video_mediaplayer w) = t + d ->
       In (SetTime Video t) (trace o)) /\
    (Vlc.time (video_mediaplayer w) = t + 1 -> In (SetTime Video t) (trace o)) /\
    (Vlc.time (video_mediaplayer w) = t - 1 -> In (SetTime Video t) (trace o)).
Proof.
  intros w v q t Hfit Hq Hint o.
  pose proof (seek_in_tick w v q t Hfit Hq Hint Video) as Hseek. cbn in Hseek.
  split; [|split; [|split]].
  - intros E x H. apply Hseek in H. tauto.
  - intros d Hd E. apply Hseek. split; [reflexivity|lia].
  - intros E. apply Hseek. split; [reflexivity|lia].
  - intros E. apply Hseek. split; [reflexivity|lia].
Qed.

Lemma update_ui_video_seek_held_back_only_by_equality_witness :
  let w := demo 5001 5000 [Py.Int 5000] in
  let o := update_ui w in
  (positions_fit w = true /\
   data_queue w = [Py.Int 5000] /\
   Py.int (Py.Int 5000) = Py.Ok 5000) /\
  (Vlc.time (video_mediaplayer w) = 5000 ->
   forall x : Z, ~ In (SetTime Video x) (trace o)) /\
  (forall d : Z, d <> 0 ->
     Vlc.time (video_mediaplayer w) = 5000 + d ->
     In (SetTime Video 5000) (trace o)) /\
  (Vlc.time (video_mediaplayer w) = 5000 + 1 -> In (SetTime Video 5000) (trace o)) /\
  (Vlc.time (video_mediaplayer w) = 5000 - 1 -> In (SetTime Video 5000) (trace o)).
Proof.
  intros w o. split; [repeat split; reflexivity|].
  exact (update_ui_video_seek_held_back_only_by_equality
           (demo 5001 5000 [Py.Int 5000]) (Py.Int 5000) [] 5000
           eq_refl eq_refl eq_refl).
Defined.

Example one_millisecond_off_is_sought :
  filter is_seek (trace (update_ui (demo 5001 5000 [Py.Int 5000]))) = [SetTime Video 5000] /\
  filter is_seek (trace (update_ui (demo 4999 5000 [Py.Int 5000]))) = [SetTime Video 5000] /\
  filter is_seek (trace (update_ui (demo 5000 5000 [Py.Int 5000]))) = [].
Proof. repeat split; reflexivity. Qed.

(** C8.  Both players at 0 and [5000] alone in the queue: one tick leaves
    both at 5000.  With 5000 queued again the next tick takes it off the
    queue and issues no seek to either player; the same holds when the two
    values were queued together from the start. *)
Theorem update_ui_two_ticks_at_5000 :
  forall w : MiniPlayer,
    Vlc.time (video_mediaplayer w) = 0 ->
    Vlc.time (audio_mediaplayer w) = 0 ->
    data_queue w = [Py.Int 5000] ->
    let o1 := update_ui w in
    let o2 := update_ui (put (Py.Int 5000) (after o1)) in
    let o12 := ticks 2 (put (Py.Int 5000) w) in
    (value o1 = Py.Ok tt /\
     Vlc.time (video_mediaplayer (after o1)) = 5000 /\
     Vlc.time (audio_mediaplayer (after o1)) = 5000 /\
     filter is_seek (trace o1) = [SetTime Video 5000; SetTime Audio 5000] /\
     data_queue (after o1) = []) /\
    (value o2 = Py.Ok tt /\
     data_queue (put (Py.Int 5000) (after o1)) = [Py.Int 5000] /\
     data_queue (after o2) = [] /\
     filter is_get (trace o2) = [QueueGet] /\
     filter is_seek (trace o2) = [] /\
     Vlc.time (video_mediaplayer (after o2)) = 5000 /\
     Vlc.time (audio_mediaplayer (after o2)) = 5000) /\
    (value o12 = Py.Ok tt /\
     filter is_seek (trace o12) = [SetTime Video 5000; SetTime Audio 5000] /\
     data_queue (after o12) = []).
Proof.
  intros w Hv Ha Hq o1 o2 o12.
  destruct w as [ti sb vf ms vm am [vmed vt vp vd] [amed ata ap ad] dq].
  cbn in Hv, Ha, Hq. subst vt ata dq. subst o1 o2 o12.
  destruct vp, ap; vm_compute; repeat split; reflexivity.
Qed.

Lemma update_ui_two_ticks_at_5000_witness :
  let w := demo 0 0 [Py.Int 5000] in
  let o1 := update_ui w in
  let o2 := update_ui (put (Py.Int 5000) (after o1)) in
  let o12 := ticks 2 (put (Py.Int 5000) w) in
  (Vlc.time (video_mediaplayer w) = 0 /\
   Vlc.time (audio_mediaplayer w) = 0 /\
   data_queue w = [Py.Int 5000]) /\
  (value o1 = Py.Ok tt /\
   Vlc.time (video_mediaplayer (after o1)) = 5000 /\
   Vlc.time (audio_mediaplayer (after o1)) = 5000 /\
   filter is_seek (trace o1) = [SetTime Video 5000; SetTime Audio 5000] /\
   data_queue (after o1) = []) /\
  (value o2 = Py.Ok tt /\
   data_queue (put (Py.Int 5000) (after o1)) = [Py.Int 5000] /\
   data_queue (after o2) = [] /\
   filter is_get (trace o2) = [QueueGet] /\
   filter is_seek (trace o2) = [] /\
   Vlc.time (video_mediaplayer (after o2)) = 5000 /\
   Vlc.time (audio_mediaplayer (after o2)) = 5000) /\
  (value o12 = Py.Ok tt /\
   filter is_seek (trace o12) = [SetTime Video 5000; SetTime Audio 5000] /\
   data_queue (after o12) = []).
Proof.
  intros w o1 o2 o12. split; [repeat split; reflexivity|].
  exact (update_ui_two_ticks_at_5000 (demo 0 0 [Py.Int 5000]) eq_refl eq_refl eq_refl).
Defined.

(** C9, as the code has it.  The tick passes [int(v)] on as it is, to the
    players that are not there already.  Whatever [v] was dequeued and
    whatever integer [t] its [int] is, negative or not, [set_time] goes to
    a player exactly when its position differs from [t], and with argument
    [t]: no sign or range test stands between the queue and [set_time].
    When neither player is at [t] both are sought, and in any case both
    end at [t].  [int] takes integers as they are, and numeric strings and
    floats too. *)
Theorem update_ui_passes_int_of_value_unchecked :
  forall (w : MiniPlayer) (v : Py.value) (q : list Py.value) (t : Z),
    positions_fit w = true ->
    data_queue w = v :: q ->
    Py.int v = Py.Ok t ->
    let o := update_ui w in
    (forall (k : Track) (x : Z),
        In (SetTime k x) (trace o) <-> x = t /\ Vlc.time (mediaplayer k w) <> t) /\
    filter is_seek (trace o) =
      (if t =? Vlc.time (video_mediaplayer w) then [] else [SetTime Video t]) ++
      (if t =? Vlc.time (audio_mediaplayer w) then [] else [SetTime Audio t]) /\
    (Vlc.time (video_mediaplayer w) <> t ->
     Vlc.time (audio_mediaplayer w) <> t ->
     filter is_seek (trace o) = [SetTime Video t; SetTime Audio t]) /\
    Vlc.time (video_mediaplayer (after o)) = t /\
    Vlc.time (audio_mediaplayer (after o)) = t /\
    (forall z : Z, Py.int (Py.Int z) = Py.Ok z) /\
    Py.int (Py.Str "-42") = Py.Ok (-42) /\
    Py.int (Py.Float (Py.Finite (-5) (-1))) = Py.Ok (-2).
Proof.
  intros w v q t Hfit Hq Hint o. subst o.
  split; [exact (seek_in_tick w v q t Hfit Hq Hint)|].
  split; [exact (seeks_of_tick w v q t Hfit Hq Hint)|].
  split.
  - intros Hv Ha. rewrite (seeks_of_tick w v q t Hfit Hq Hint).
    unfold seek_calls.
    destruct (Z.eqb_spec t (Vlc.time (video_mediaplayer w))); [congruence|].
    destruct (Z.eqb_spec t (Vlc.time (audio_mediaplayer w))); [congruence|].
    reflexivity.
  - rewrite (update_ui_dequeue w v q t Hfit Hq Hint). cbn [after].
    repeat split; try reflexivity.
    + apply (seek_both_time t _ Video).
    + apply (seek_both_time t _ Audio).
Qed.

Lemma update_ui_passes_int_of_value_unchecked_witness :
  let w := demo 1000 1000 [Py.Str "-42"] in
  let o := update_ui w in
  (positions_fit w = true /\
   data_queue w = [Py.Str "-42"] /\
   Py.int (Py.Str "-42") = Py.Ok (-42)) /\
  (forall (k : Track) (x : Z),
      In (SetTime k x) (trace o) <-> x = -42 /\ Vlc.time (mediaplayer k w) <> -42) /\
  filter is_seek (trace o) =
    (if -42 =? Vlc.time (video_mediaplayer w) then [] else [SetTime Video (-42)]) ++
    (if -42 =? Vlc.time (audio_mediaplayer w) then [] else [SetTime Audio (-42)]) /\
  (Vlc.time (video_mediaplayer w) <> -42 ->
   Vlc.time (audio_mediaplayer w) <> -42 ->
   filter is_seek (trace o) = [SetTime Video (-42); SetTime Audio (-42)]) /\
  Vlc.time (video_mediaplayer (after o)) = -42 /\
  Vlc.time (audio_mediaplayer (after o)) = -42 /\
  (forall z : Z, Py.int (Py.Int z) = Py.Ok z) /\
  Py.int (Py.Str "-42") = Py.Ok (-42) /\
  Py.int (Py.Float (Py.Finite (-5) (-1))) = Py.Ok (-2).
Proof.
  intros w o. split; [repeat split; reflexivity|].
  exact (update_ui_passes_int_of_value_unchecked
           (demo 1000 1000 [Py.Str "-42"]) (Py.Str "-42") [] (-42)
           eq_refl eq_refl eq_refl).
Defined.

(** C9 as stated fails for a player already at the value: after a
    cancelled open both players are empty, at -1; a dequeued -1 is taken
    off the queue and passed to [set_time] on neither. *)
Lemma update_ui_dequeued_minus_one_reaches_no_empty_player :
  let w := after (init hesitant_host [Py.Int (-1)]) in
  let o := update_ui w in
  data_queue w = [Py.Int (-1)] /\
  Py.int (Py.Int (-1)) = Py.Ok (-1) /\
  Vlc.time (video_mediaplayer w) = -1 /\
  Vlc.time (audio_mediaplayer w) = -1 /\
  value o = Py.Ok tt /\
  data_queue (after o) = [] /\
  filter is_seek (trace o) = [] /\
  ~ In (SetTime Video (-1)) (trace o) /\
  ~ In (SetTime Audio (-1)) (trace o).
Proof.
  cbv zeta. repeat split; try reflexivity.
  - cbn. intuition discriminate.
  - cbn. intuition discriminate.
Qed.

Example negative_values_reach_set_time :
  filter is_seek (trace (update_ui (demo 1000 1000 [Py.Int (-5)]))) =
    [SetTime Video (-5); SetTime Audio (-5)] /\
  filter is_seek (trace (update_ui (demo 1000 1000 [Py.Float (Py.Finite (-5) (-1))]))) =
    [SetTime Video (-2); SetTime Audio (-2)] /\
  filter is_seek (trace (update_ui (demo 1000 1000 [Py.Str " 7_000 "]))) =
    [SetTime Video 7000; SetTime Audio 7000].
Proof. repeat split; reflexivity. Qed.

(* ================================================================== *)
(** ** Further properties of the tick *)
(* ================================================================== *)

Lemma bind_ok_run {A B : Type} (m : M A) (k : A -> M B) (w : MiniPlayer) (a : A) :
  value (m w) = Py.Ok a ->
  bind m k w =
  mkOutcome (value (k a (after (m w)))) (after (k a (after (m w))))
    (trace (m w) ++ trace (k a (after (m w)))).
Proof. intros H. unfold bind. cbv zeta. rewrite H. reflexivity. Qed.

(** X2.  A tick leaves alone everything but the status text, the queue
    and the two positions: the window title, the video frame, the media
    objects and, of each player, the bound media, the playing state and the
    attached surface are after the tick what they were before it, whatever
    was on the queue. *)
Theorem update_ui_touches_only_status_queue_and_positions :
  forall w : MiniPlayer,
    let w' := after (update_ui w) in
    windowTitle w' = windowTitle w /\
    videoframe w' = videoframe w /\
    media_store w' = media_store w /\
    video_media w' = video_media w /\
    audio_media w' = audio_media w /\
    (forall k : Track,
        Vlc.media (mediaplayer k w') = Vlc.media (mediaplayer k w) /\
        Vlc.playing (mediaplayer k w') = Vlc.playing (mediaplayer k w) /\
        Vlc.drawable (mediaplayer k w') = Vlc.drawable (mediaplayer k w)).
Proof.
  intros w w'. subst w'. rewrite update_ui_run. unfold tick_outcome.
  destruct (positions_fit w);
    [|cbn [after]; repeat split; reflexivity].
  destruct (data_queue w) as [|v q]; [|destruct (Py.int v) as [t|e]];
    cbn [after].
  - repeat split; try reflexivity; destruct k; reflexivity.
  - destruct (seek_both_frame t
      (with_data_queue q (with_statusbar (status_line w) w)))
      as (-> & -> & -> & -> & Hk).
    destruct (seek_both_rest t
      (with_data_queue q (with_statusbar (status_line w) w))) as (_ & -> & _).
    repeat split; try reflexivity;
      destruct (Hk k) as (E1 & E2 & E3); rewrite ?E1, ?E2, ?E3;
      destruct k; reflexivity.
  - repeat split; try reflexivity; destruct k; reflexivity.
Qed.

(** X1.  When [int] refuses the value taken off the queue (the tick
    reaches the queue when both positions fit a C [int]), the exception
    leaves [update_ui]: the value is gone from the queue, the status line
    was refreshed before, no [set_time] is issued and both players are as
    they were. *)
Theorem update_ui_refused_value_is_lost_without_seek :
  forall (w : MiniPlayer) (v : Py.value) (q : list Py.value) (e : Py.exn),
    positions_fit w = true ->
    data_queue w = v :: q ->
    Py.int v = Py.Raise e ->
    let o := update_ui w in
    value o = Py.Raise e /\
    data_queue (after o) = q /\
    statusbar (after o) = status_line w /\
    filter is_seek (trace o) = [] /\
    video_mediaplayer (after o) = video_mediaplayer w /\
    audio_mediaplayer (after o) = audio_mediaplayer w.
Proof.
  intros w v q e Hfit Hq Hint o. subst o.
  rewrite (update_ui_dequeue_raise w v q e Hfit Hq Hint).
  cbn [value after trace]. rewrite filter_app, status_calls_no_seek.
  repeat split; reflexivity.
Qed.

Lemma update_ui_refused_value_is_lost_without_seek_witness :
  let w := demo 1000 2000 [Py.Str "soon"; Py.Int 7] in
  let o := update_ui w in
  (positions_fit w = true /\
   data_queue w = [Py.Str "soon"; Py.Int 7] /\
   Py.int (Py.Str "soon") = Py.Raise Py.ValueError) /\
  value o = Py.Raise Py.ValueError /\
  data_queue (after o) = [Py.Int 7] /\
  statusbar (after o) = status_line w /\
  filter is_seek (trace o) = [] /\
  video_mediaplayer (after o) = video_mediaplayer w /\
  audio_mediaplayer (after o) = audio_mediaplayer w.
Proof.
  intros w o. split; [repeat split; reflexivity|].
  exact (update_ui_refused_value_is_lost_without_seek
           (demo 1000 2000 [Py.Str "soon"; Py.Int 7]) (Py.Str "soon") [Py.Int 7]
           Py.ValueError eq_refl eq_refl eq_refl).
Defined.

Lemma status_calls_depend (w w' : MiniPlayer) :
  Vlc.time (video_mediaplayer w) = Vlc.time (video_mediaplayer w') ->
  Vlc.time (audio_mediaplayer w) = Vlc.time (audio_mediaplayer w') ->
  Vlc.playing (video_mediaplayer w) = Vlc.playing (video_mediaplayer w') ->
  Vlc.playing (audio_mediaplayer w) = Vlc.playing (audio_mediaplayer w') ->
  status_calls w = status_calls w'.
Proof.
  intros Hv Ha Hpv Hpa. unfold status_calls, status_line.
  rewrite <- Hv, <- Ha, <- Hpv, <- Hpa.
  destruct (Vlc.playing (video_mediaplayer w)); [reflexivity|].
  destruct (Vlc.playing (audio_mediaplayer w)); reflexivity.
Qed.

(** X3.  What a tick calls and whether it raises depend on the two
    positions, the two playing states and the queue only.  In particular
    the tick never looks at whether a media is bound: players left empty by
    a cancelled dialog are sought like any other. *)
Theorem update_ui_looks_at_positions_playing_and_queue_only :
  forall w w' : MiniPlayer,
    Vlc.time (video_mediaplayer w) = Vlc.time (video_mediaplayer w') ->
    Vlc.time (audio_mediaplayer w) = Vlc.time (audio_mediaplayer w') ->
    Vlc.playing (video_mediaplayer w) = Vlc.playing (video_mediaplayer w') ->
    Vlc.playing (audio_mediaplayer w) = Vlc.playing (audio_mediaplayer w') ->
    data_queue w = data_queue w' ->
    trace (update_ui w) = trace (update_ui w') /\
    value (update_ui w) = value (update_ui w').
Proof.
  intros w w' Hv Ha Hpv Hpa Hq. rewrite !update_ui_run.
  unfold tick_outcome, positions_fit, refresh_calls.
  rewrite <- Hq, <- Hv, <- Ha, (status_calls_depend w w' Hv Ha Hpv Hpa).
  destruct (QTime.fits_c_int (Vlc.time (video_mediaplayer w)));
    destruct (QTime.fits_c_int (Vlc.time (audio_mediaplayer w)));
    cbn [andb]; try (split; reflexivity).
  destruct (data_queue w) as [|v q]; [|destruct (Py.int v)]; split; reflexivity.
Qed.

Lemma update_ui_looks_at_positions_playing_and_queue_only_witness :
  let w := demo (-1) (-1) [Py.Int 5000] in
  let w' :=
    mkMiniPlayer "Mini Player" "Ready" (Some QFrame) [] None None
      (Vlc.mkMediaPlayer None (-1) true None)
      (Vlc.mkMediaPlayer None (-1) true None) [Py.Int 5000] in
  trace (update_ui w) = trace (update_ui w') /\
  value (update_ui w) = value (update_ui w').
Proof.
  intros w w'.
  exact (update_ui_looks_at_positions_playing_and_queue_only
           (demo (-1) (-1) [Py.Int 5000])
           (mkMiniPlayer "Mini Player" "Ready" (Some QFrame) [] None None
              (Vlc.mkMediaPlayer None (-1) true None)
              (Vlc.mkMediaPlayer None (-1) true None) [Py.Int 5000])
           eq_refl eq_refl eq_refl eq_refl eq_refl).
Defined.

Example unbound_players_are_sought :
  filter is_seek
    (trace (update_ui (with_data_queue [Py.Int 5000] (after (init hesitant_host []))))) =
  [SetTime Video 5000; SetTime Audio 5000].
Proof. reflexivity. Qed.

(* ================================================================== *)
(** ** Ticks in a row *)
(* ================================================================== *)

Lemma ticks_succ (n : nat) (w : MiniPlayer) :
  ticks (S n) w = bind update_ui (fun _ => ticks n) w.
Proof. reflexivity. Qed.

Lemma ticks_zero (w : MiniPlayer) : ticks 0 w = mkOutcome (Py.Ok tt) w [].
Proof. reflexivity. Qed.

(** The three parts of a tick followed by [n] more, when the tick
    returns. *)
Lemma ticks_succ_ok (n : nat) (w : MiniPlayer) :
  value (update_ui w) = Py.Ok tt ->
  value (ticks (S n) w) = value (ticks n (after (update_ui w))) /\
  after (ticks (S n) w) = after (ticks n (after (update_ui w))) /\
  trace (ticks (S n) w) = trace (update_ui w) ++ trace (ticks n (after (update_ui w))).
Proof.
  intros H. rewrite ticks_succ, (bind_ok_run _ _ w tt H).
  repeat split; reflexivity.
Qed.

Lemma accepted_head (n : nat) (l : list Py.value) :
  forallb int_fits (firstn (S n) l) = true ->
  forallb int_fits (firstn 1 l) = true /\
  forallb int_fits (firstn n (tl l)) = true.
Proof.
  destruct l as [|v q]; cbn [firstn forallb tl].
  - now rewrite firstn_nil.
  - intros H. apply andb_true_iff in H. destruct H as (-> & ->).
    split; reflexivity.
Qed.

Lemma skipn_tl (n : nat) (l : list Py.value) : skipn n (tl l) = skipn (S n) l.
Proof. destruct l; [now rewrite skipn_nil|reflexivity]. Qed.

Lemma nth_error_tl (n : nat) (l : list Py.value) :
  nth_error (tl l) n = nth_error l (S n).
Proof. destruct l; [now destruct n|reflexivity]. Qed.

(** A tick from positions that fit, over a first value that fits (or an
    empty queue), returns normally and leaves positions that fit. *)
Lemma update_ui_keeps_fit (w : MiniPlayer) :
  positions_fit w = true ->
  forallb int_fits (firstn 1 (data_queue w)) = true ->
  value (update_ui w) = Py.Ok tt /\
  positions_fit (after (update_ui w)) = true.
Proof.
  intros Hfit H. rewrite update_ui_run. unfold tick_outcome. rewrite Hfit.
  destruct (data_queue w) as [|v q].
  - cbn [value after]. split; [reflexivity|]. destruct w; exact Hfit.
  - cbn in H. unfold int_fits in H.
    destruct (Py.int v) as [t|e]; [|discriminate].
    cbn [value after]. split; [reflexivity|]. unfold positions_fit.
    rewrite (seek_both_time t _ Video), (seek_both_time t _ Audio).
    apply andb_true_iff in H. destruct H as (-> & _). reflexivity.
Qed.

Lemma update_ui_queue_fit (w : MiniPlayer) :
  positions_fit w = true ->
  data_queue (after (update_ui w)) = tl (data_queue w).
Proof. intros Hfit. now rewrite update_ui_queue_after, Hfit. Qed.

(** [n] ticks from positions that fit, over a queue whose first [n]
    values fit. *)
Lemma ticks_drain_run (n : nat) :
  forall w : MiniPlayer,
    positions_fit w = true ->
    forallb int_fits (firstn n (data_queue w)) = true ->
    value (ticks n w) = Py.Ok tt /\
    data_queue (after (ticks n w)) = skipn n (data_queue w) /\
    filter is_get (trace (ticks n w)) = repeat QueueGet n.
Proof.
  induction n as [|n IH]; intros w Hfit H.
  - rewrite ticks_zero. repeat split; reflexivity.
  - destruct (accepted_head n _ H) as (Hhead & Hrest).
    destruct (update_ui_keeps_fit w Hfit Hhead) as (Hval & Hfit').
    destruct (ticks_succ_ok n w Hval) as (-> & -> & ->).
    pose proof (update_ui_queue_fit w Hfit) as Hq.
    rewrite <- Hq in Hrest.
    destruct (IH _ Hfit' Hrest) as (Hv & Hq' & Hg).
    rewrite Hv, Hq', Hq, skipn_tl, filter_app, Hg, update_ui_gets, Hfit.
    repeat split; reflexivity.
Qed.

(** The positions after [S n] such ticks are the [int] of the value that
    was [n] places from the front. *)
Lemma ticks_last_run (n : nat) :
  forall (w : MiniPlayer) (v : Py.value) (t : Z),
    positions_fit w = true ->
    forallb int_fits (firstn (S n) (data_queue w)) = true ->
    nth_error (data_queue w) n = Some v ->
    Py.int v = Py.Ok t ->
    forall k : Track, Vlc.time (mediaplayer k (after (ticks (S n) w))) = t.
Proof.
  induction n as [|n IH]; intros w v t Hfit H Hnth Hint k.
  - destruct (update_ui_keeps_fit w Hfit H) as (Hval & _).
    destruct (ticks_succ_ok 0 w Hval) as (_ & -> & _).
    rewrite ticks_zero.
    assert (Hq : exists q, data_queue w = v :: q).
    { destruct (data_queue w) as [|v0 q]; [discriminate|].
      cbn in Hnth. injection Hnth as ->. now exists q. }
    destruct Hq as (q & Hq).
    change (after (mkOutcome (Py.Ok tt) (after (update_ui w)) []))
      with (after (update_ui w)).
    rewrite (update_ui_dequeue w v q t Hfit Hq Hint).
    apply seek_both_time.
  - destruct (accepted_head (S n) _ H) as (Hhead & Hrest).
    destruct (update_ui_keeps_fit w Hfit Hhead) as (Hval & Hfit').
    destruct (ticks_succ_ok (S n) w Hval) as (_ & -> & _).
    pose proof (update_ui_queue_fit w Hfit) as Hq.
    assert (Hnth' : nth_error (tl (data_queue w)) n = Some v)
      by (rewrite nth_error_tl; exact Hnth).
    rewrite <- Hq in Hrest, Hnth'.
    exact (IH (after (update_ui w)) v t Hfit' Hrest Hnth' Hint k).
Qed.

(** Ticks over an empty queue, from positions that fit. *)
Lemma ticks_empty_run (n : nat) :
  forall w : MiniPlayer,
    positions_fit w = true ->
    data_queue w = [] ->
    value (ticks n w) = Py.Ok tt /\
    filter is_seek (trace (ticks n w)) = [] /\
    video_mediaplayer (after (ticks n w)) = video_mediaplayer w /\
    audio_mediaplayer (after (ticks n w)) = audio_mediaplayer w /\
    data_queue (after (ticks n w)) = [].
Proof.
  induction n as [|n IH]; intros w Hfit Hq.
  - rewrite ticks_zero. repeat split; try reflexivity. exact Hq.
  - assert (Hrun := update_ui_empty w Hfit Hq).
    assert (Hval : value (update_ui w) = Py.Ok tt) by now rewrite Hrun.
    destruct (ticks_succ_ok n w Hval) as (-> & -> & ->).
    rewrite Hrun. cbn [after trace].
    destruct (IH (with_statusbar (status_line w) w)) as (Hv & Hs & Hpv & Hpa & Hq').
    { destruct w; exact Hfit. }
    { destruct w; cbn in *. exact Hq. }
    rewrite Hv, Hpv, Hpa, Hq', !filter_app, Hs, status_calls_no_seek.
    repeat split; reflexivity.
Qed.

(** X4.  From positions that fit a C [int], [n] ticks over a queue whose
    first [n] values [int] takes and turns into integers that fit a C
    [int] all return normally, ask the queue [n] times, and leave exactly
    the values from place [n] on, in their order (none, when fewer than [n]
    were queued). *)
Theorem ticks_take_the_first_items_in_order :
  forall (n : nat) (w : MiniPlayer),
    positions_fit w = true ->
    forallb int_fits (firstn n (data_queue w)) = true ->
    value (ticks n w) = Py.Ok tt /\
    data_queue (after (ticks n w)) = skipn n (data_queue w) /\
    filter is_get (trace (ticks n w)) = repeat QueueGet n.
Proof. intros n w Hfit H. exact (ticks_drain_run n w Hfit H). Qed.

Lemma ticks_take_the_first_items_in_order_witness :
  let w := demo 0 0 [Py.Int 10; Py.Str "20"; Py.Int 30; Py.Str "later"] in
  (positions_fit w = true /\
   forallb int_fits (firstn 2 (data_queue w)) = true) /\
  value (ticks 2 w) = Py.Ok tt /\
  data_queue (after (ticks 2 w)) = skipn 2 (data_queue w) /\
  filter is_get (trace (ticks 2 w)) = repeat QueueGet 2.
Proof.
  intros w. split; [split; reflexivity|].
  exact (ticks_take_the_first_items_in_order 2
           (demo 0 0 [Py.Int 10; Py.Str "20"; Py.Int 30; Py.Str "later"])
           eq_refl eq_refl).
Defined.

(** A queued value that does not fit a C [int] is applied, and the tick
    after it raises in the refresh: the values behind it stay queued. *)
Example ticks_stop_after_a_value_out_of_range :
  let o := ticks 2 (demo 0 0 [Py.Int 2147483648; Py.Int 5]) in
  value o = Py.Raise Py.OverflowError /\
  data_queue (after o) = [Py.Int 5] /\
  Vlc.time (video_mediaplayer (after o)) = 2147483648 /\
  filter is_get (trace o) = [QueueGet].
Proof. repeat split; reflexivity. Qed.

(** X5.  Under the same conditions, after [S n] ticks both players are
    at the [int] of the value that stood [n] places from the front of the
    queue: each tick applies one value, oldest first, and the last one
    applied is where the players stand. *)
Theorem ticks_leave_players_at_last_value_taken :
  forall (n : nat) (w : MiniPlayer) (v : Py.value) (t : Z),
    positions_fit w = true ->
    forallb int_fits (firstn (S n) (data_queue w)) = true ->
    nth_error (data_queue w) n = Some v ->
    Py.int v = Py.Ok t ->
    Vlc.time (video_mediaplayer (after (ticks (S n) w))) = t /\
    Vlc.time (audio_mediaplayer (after (ticks (S n) w))) = t.
Proof.
  intros n w v t Hfit H Hnth Hint. split.
  - exact (ticks_last_run n w v t Hfit H Hnth Hint Video).
  - exact (ticks_last_run n w v t Hfit H Hnth Hint Audio).
Qed.

Lemma ticks_leave_players_at_last_value_taken_witness :
  let w := demo 0 0 [Py.Int 10; Py.Str "20"; Py.Int 30] in
  (positions_fit w = true /\
   forallb int_fits (firstn 2 (data_queue w)) = true /\
   nth_error (data_queue w) 1 = Some (Py.Str "20") /\
   Py.int (Py.Str "20") = Py.Ok 20) /\
  Vlc.time (video_mediaplayer (after (ticks 2 w))) = 20 /\
  Vlc.time (audio_mediaplayer (after (ticks 2 w))) = 20.
Proof.
  intros w. split; [repeat split; reflexivity|].
  exact (ticks_leave_players_at_last_value_taken 1
           (demo 0 0 [Py.Int 10; Py.Str "20"; Py.Int 30]) (Py.Str "20") 20
           eq_refl eq_refl eq_refl eq_refl).
Defined.

(** X6.  From positions that fit a C [int], however many ticks run over
    an empty queue, none issues a [set_time], both players stay as they
    were and the queue stays empty. *)
Theorem ticks_over_empty_queue_never_seek :
  forall (n : nat) (w : MiniPlayer),
    positions_fit w = true ->
    data_queue w = [] ->
    value (ticks n w) = Py.Ok tt /\
    filter is_seek (trace (ticks n w)) = [] /\
    video_mediaplayer (after (ticks n w)) = video_mediaplayer w /\
    audio_mediaplayer (after (ticks n w)) = audio_mediaplayer w /\
    data_queue (after (ticks n w)) = [].
Proof. intros n w Hfit Hq. exact (ticks_empty_run n w Hfit Hq). Qed.

Lemma ticks_over_empty_queue_never_seek_witness :
  let w := demo 1234 1250 [] in
  (positions_fit w = true /\ data_queue w = []) /\
  value (ticks 3 w) = Py.Ok tt /\
  filter is_seek (trace (ticks 3 w)) = [] /\
  video_mediaplayer (after (ticks 3 w)) = video_mediaplayer w /\
  audio_mediaplayer (after (ticks 3 w)) = audio_mediaplayer w /\
  data_queue (after (ticks 3 w)) = [].
Proof.
  intros w. split; [split; reflexivity|].
  exact (ticks_over_empty_queue_never_seek 3 (demo 1234 1250 []) eq_refl eq_refl).
Defined.

(** X7.  From positions that fit a C [int] and over a backlog of [k]
    values that fit, a value (fitting too) put behind them is not applied
    by the next [k] ticks, after which it is alone on the queue; tick
    [k + 1] applies it.  The lag of a value is the backlog in front of
    it. *)
Theorem put_behind_backlog_is_applied_after_it :
  forall (w : MiniPlayer) (v : Py.value) (t : Z),
    positions_fit w = true ->
    forallb int_fits (data_queue w) = true ->
    Py.int v = Py.Ok t ->
    QTime.fits_c_int t = true ->
    let k := List.length (data_queue w) in
    data_queue (after (ticks k (put v w))) = [v] /\
    filter is_get (trace (ticks k (put v w))) = repeat QueueGet k /\
    data_queue (after (ticks (S k) (put v w))) = [] /\
    Vlc.time (video_mediaplayer (after (ticks (S k) (put v w)))) = t /\
    Vlc.time (audio_mediaplayer (after (ticks (S k) (put v w)))) = t.
Proof.
  intros w v t Hfit Hacc Hint Ht k. subst k.
  assert (Hput : data_queue (put v w) = data_queue w ++ [v])
    by (destruct w; reflexivity).
  assert (Hfit' : positions_fit (put v w) = true) by (destruct w; exact Hfit).
  assert (Hv : int_fits v = true) by (unfold int_fits; now rewrite Hint).
  assert (Hk : forallb int_fits
                 (firstn (List.length (data_queue w)) (data_queue (put v w))) = true).
  { rewrite Hput, firstn_app, Nat.sub_diag, firstn_O, app_nil_r, firstn_all.
    exact Hacc. }
  assert (HSk : forallb int_fits
                  (firstn (S (List.length (data_queue w))) (data_queue (put v w))) = true).
  { rewrite Hput, firstn_all2 by (rewrite length_app; cbn; lia).
    rewrite forallb_app, Hacc. cbn. now rewrite Hv. }
  destruct (ticks_drain_run _ _ Hfit' Hk) as (_ & Hq & Hg).
  destruct (ticks_drain_run _ _ Hfit' HSk) as (_ & HqS & _).
  assert (Hnth : nth_error (data_queue (put v w)) (List.length (data_queue w)) = Some v).
  { rewrite Hput, nth_error_app2, Nat.sub_diag by lia. reflexivity. }
  split; [|split; [exact Hg|split; [|split]]].
  - rewrite Hq, Hput, skipn_app, skipn_all, Nat.sub_diag. reflexivity.
  - rewrite HqS, Hput. apply skipn_all2. rewrite length_app. cbn. lia.
  - exact (ticks_last_run _ _ v t Hfit' HSk Hnth Hint Video).
  - exact (ticks_last_run _ _ v t Hfit' HSk Hnth Hint Audio).
Qed.

Lemma put_behind_backlog_is_applied_after_it_witness :
  let w := demo 0 0 [Py.Int 10; Py.Int 20] in
  (positions_fit w = true /\
   forallb int_fits (data_queue w) = true /\
   Py.int (Py.Int 99) = Py.Ok 99 /\
   QTime.fits_c_int 99 = true) /\
  data_queue (after (ticks 2 (put (Py.Int 99) w))) = [Py.Int 99] /\
  filter is_get (trace (ticks 2 (put (Py.Int 99) w))) = repeat QueueGet 2 /\
  data_queue (after (ticks 3 (put (Py.Int 99) w))) = [] /\
  Vlc.time (video_mediaplayer (after (ticks 3 (put (Py.Int 99) w)))) = 99 /\
  Vlc.time (audio_mediaplayer (after (ticks 3 (put (Py.Int 99) w)))) = 99.
Proof.
  intros w. split; [repeat split; reflexivity|].
  exact (put_behind_backlog_is_applied_after_it
           (demo 0 0 [Py.Int 10; Py.Int 20]) (Py.Int 99) 99
           eq_refl eq_refl eq_refl eq_refl).
Defined.

(* ================================================================== *)
(** ** Opening the files *)
(* ================================================================== *)

Section OpenFiles.

Variable host : Host.

Lemma truthy_iff (s : string) : Py.truthy s = true <-> s <> EmptyString.
Proof. destruct s; cbn; split; congruence. Qed.

Lemma store_update_here (f : Vlc.Media -> Vlc.Media) (l r : list Vlc.Media) (m : Vlc.Media) :
  store_update (l ++ m :: r) (List.length l) f = l ++ f m :: r.
Proof.
  induction l as [|x l IH]; cbn; [reflexivity|]. now rewrite IH.
Qed.

Lemma store_update_next (f : Vlc.Media -> Vlc.Media) (l r : list Vlc.Media) (m m' : Vlc.Media) :
  store_update (l ++ m :: m' :: r) (S (List.length l)) f = l ++ m :: f m' :: r.
Proof.
  induction l as [|x l IH]; cbn; [reflexivity|]. now rewrite IH.
Qed.

Lemma nth_error_here (l r : list Vlc.Media) (m : Vlc.Media) :
  nth_error (l ++ m :: r) (List.length l) = Some m.
Proof.
  induction l as [|x l IH]; cbn; [reflexivity|]. exact IH.
Qed.

Lemma nth_error_next (l r : list Vlc.Media) (m m' : Vlc.Media) :
  nth_error (l ++ m :: m' :: r) (S (List.length l)) = Some m'.
Proof.
  induction l as [|x l IH]; cbn; [reflexivity|]. exact IH.
Qed.

Ltac open_files_expose :=
  unfold open_outcome, open_files, ask_file, opened, titled, open_calls,
    title_calls, attached, attach_calls, names_platform,
    video_dialog, audio_dialog, video_choice, audio_choice in *;
  cbv beta zeta.

Ltac open_files_compute :=
  cbv beta iota zeta delta
    [bind value after trace ret call command media_new set_media parse
     media_get_meta setWindowTitle play set_xwindow set_hwnd set_nsobject
     videoframe_winId negb orb Py.truthy fst mediaplayer with_mediaplayer
     with_media with_media_store with_windowTitle video_mediaplayer
     audio_mediaplayer media_store windowTitle statusbar videoframe
     video_media audio_media data_queue Vlc.set_media Vlc.play
     Vlc.set_drawable Vlc.media Vlc.time Vlc.playing Vlc.drawable];
  cbn [app].

(** [open_files] in closed form. *)
Lemma open_files_run (w : MiniPlayer) : open_files host w = open_outcome host w.
Proof.
  open_files_expose.
  destruct (getOpenFileName host "Choose Video File" (expanduser_home host))
    as [vp vfilter].
  destruct (getOpenFileName host "Choose Audio File" (expanduser_home host))
    as [ap afilter].
  destruct vp as [|c vp]; [open_files_compute; reflexivity|].
  destruct ap as [|c' ap]; [open_files_compute; reflexivity|].
  destruct w as [ti sb vf ms vm am [vmed vt vplay vd] [amed ata aplay ad] dq].
  destruct vf as [f|];
    (destruct (String.eqb (platform_system host) "Linux");
     [|destruct (String.eqb (platform_system host) "Windows");
       [|destruct (String.eqb (platform_system host) "Darwin")]]);
    open_files_compute;
    rewrite ?length_app; cbn [List.length]; rewrite ?Nat.add_1_r;
    rewrite <- ?app_assoc; cbn [app];
    rewrite store_update_here, store_update_next, nth_error_here;
    reflexivity.
Qed.

Lemma open_files_cancelled_video (w : MiniPlayer) :
  video_choice host = EmptyString ->
  open_files host w = mkOutcome (Py.Ok tt) w [video_dialog host].
Proof.
  intros Hv. rewrite open_files_run. unfold open_outcome. now rewrite Hv.
Qed.

Lemma open_files_cancelled_audio (w : MiniPlayer) :
  video_choice host <> EmptyString ->
  audio_choice host = EmptyString ->
  open_files host w = mkOutcome (Py.Ok tt) w [video_dialog host; audio_dialog host].
Proof.
  intros Hv Ha. apply truthy_iff in Hv.
  rewrite open_files_run. unfold open_outcome. now rewrite Hv, Ha.
Qed.

(** Both files chosen, on an object with its video frame. *)
Lemma open_files_chosen (w : MiniPlayer) :
  video_choice host <> EmptyString ->
  audio_choice host <> EmptyString ->
  has_frame w = true ->
  open_files host w = mkOutcome (Py.Ok tt) (opened host w) (open_calls host w).
Proof.
  intros Hv Ha Hf. apply truthy_iff in Hv. apply truthy_iff in Ha.
  rewrite open_files_run. unfold open_outcome, has_frame in *.
  rewrite Hv, Ha. cbn [negb]. destruct (videoframe w); [|discriminate].
  now rewrite orb_true_r.
Qed.

End OpenFiles.

(** [__init__] when [open_files] changes nothing. *)
Lemma init_cancelled (host : Host) (q : list Py.value) (dialogs : list Call) :
  (forall w : MiniPlayer, open_files host w = mkOutcome (Py.Ok tt) w dialogs) ->
  init host q =
  mkOutcome (Py.Ok tt)
    (mkMiniPlayer "Mini Player" "Ready"
       (Some (if String.eqb (platform_system host) "Darwin"
              then QMacCocoaViewContainer else QFrame))
       [] None None Vlc.media_player_new Vlc.media_player_new q)
    ([SetWindowTitle "Mini Player"; ShowMessage "Ready"] ++ dialogs).
Proof.
  intros Hopen. unfold init, bind, setWindowTitle, showMessage, command, init_ui.
  cbv beta iota zeta delta [value after trace].
  rewrite Hopen. cbn. now rewrite app_nil_r.
Qed.

(** C4.  When either dialog is cancelled - the video one, or the audio
    one after a video file was chosen - [open_files] returns leaving the
    object as it was: its only calls are the dialogs, no media is bound, no
    [play] is issued and the window title is not set.  Run by [__init__],
    this leaves both players unbound and idle under the title "Mini
    Player". *)
Theorem open_files_cancelled_changes_nothing :
  forall (host : Host) (w : MiniPlayer) (q : list Py.value),
    video_choice host = EmptyString \/ audio_choice host = EmptyString ->
    let o := open_files host w in
    let i := init host q in
    (value o = Py.Ok tt /\
     after o = w /\
     (forall c : Call, In c (trace o) -> c = video_dialog host \/ c = audio_dialog host) /\
     (forall k : Track, ~ In (Play k) (trace o)) /\
     (forall (k : Track) (m : Vlc.media_ref), ~ In (SetMedia k m) (trace o)) /\
     (forall s : string, ~ In (SetWindowTitle s) (trace o))) /\
    (Vlc.media (video_mediaplayer (after i)) = None /\
     Vlc.media (audio_mediaplayer (after i)) = None /\
     Vlc.playing (video_mediaplayer (after i)) = false /\
     Vlc.playing (audio_mediaplayer (after i)) = false /\
     video_media (after i) = None /\
     audio_media (after i) = None /\
     windowTitle (after i) = "Mini Player"%string /\
     (forall k : Track, ~ In (Play k) (trace i))).
Proof.
  intros host w q H o i. subst o i.
  assert (Hd : exists dialogs : list Call,
             (forall w' : MiniPlayer,
                 open_files host w' = mkOutcome (Py.Ok tt) w' dialogs) /\
             (forall c : Call, In c dialogs ->
                               c = video_dialog host \/ c = audio_dialog host)).
  { destruct (string_dec (video_choice host) EmptyString) as [Ev|Nv].
    - exists [video_dialog host]. split.
      + intros w'. now apply open_files_cancelled_video.
      + intros c [<-|[]]. now left.
    - destruct H as [H|Ea]; [contradiction|].
      exists [video_dialog host; audio_dialog host]. split.
      + intros w'. now apply open_files_cancelled_audio.
      + intros c [<-|[<-|[]]]; auto. }
  destruct Hd as (dialogs & Hopen & Hdialogs).
  rewrite (init_cancelled host q dialogs Hopen), (Hopen w).
  cbn [value after trace windowTitle video_media audio_media
       video_mediaplayer audio_mediaplayer].
  split; [split; [reflexivity|split; [reflexivity|split; [exact Hdialogs|]]]|].
  - repeat split.
    + intros k Hin. destruct (Hdialogs _ Hin); discriminate.
    + intros k m Hin. destruct (Hdialogs _ Hin); discriminate.
    + intros s Hin. destruct (Hdialogs _ Hin); discriminate.
  - repeat split; try reflexivity.
    intros k [Hin|[Hin|Hin]]; try discriminate.
    destruct (Hdialogs _ Hin); discriminate.
Qed.

(** The user picks a video file and cancels the audio dialog. *)
Lemma open_files_cancelled_changes_nothing_witness :
  let w := after (init hesitant_host []) in
  let o := open_files hesitant_host w in
  let i := init hesitant_host [Py.Int 5000] in
  (video_choice hesitant_host = EmptyString \/ audio_choice hesitant_host = EmptyString) /\
  (value o = Py.Ok tt /\
   after o = w /\
   (forall c : Call, In c (trace o) ->
                     c = video_dialog hesitant_host \/ c = audio_dialog hesitant_host) /\
   (forall k : Track, ~ In (Play k) (trace o)) /\
   (forall (k : Track) (m : Vlc.media_ref), ~ In (SetMedia k m) (trace o)) /\
   (forall s : string, ~ In (SetWindowTitle s) (trace o))) /\
  (Vlc.media (video_mediaplayer (after i)) = None /\
   Vlc.media (audio_mediaplayer (after i)) = None /\
   Vlc.playing (video_mediaplayer (after i)) = false /\
   Vlc.playing (audio_mediaplayer (after i)) = false /\
   video_media (after i) = None /\
   audio_media (after i) = None /\
   windowTitle (after i) = "Mini Player"%string /\
   (forall k : Track, ~ In (Play k) (trace i))).
Proof.
  intros w o i. split; [right; reflexivity|].
  exact (open_files_cancelled_changes_nothing hesitant_host
           (after (init hesitant_host [])) [Py.Int 5000] (or_intror eq_refl)).
Defined.

Example audio_dialog_cancelled :
  trace (init hesitant_host []) =
  [SetWindowTitle "Mini Player"; ShowMessage "Ready";
   GetOpenFileName "Choose Video File" "/home/u";
   GetOpenFileName "Choose Audio File" "/home/u"].
Proof. reflexivity. Qed.

Lemma attach_calls_are_attach (host : Host) :
  filter is_attach (attach_calls host) = attach_calls host.
Proof.
  unfold attach_calls.
  destruct (String.eqb (platform_system host) "Linux"); [reflexivity|].
  destruct (String.eqb (platform_system host) "Windows"); [reflexivity|].
  destruct (String.eqb (platform_system host) "Darwin"); reflexivity.
Qed.

Lemma attach_calls_filtered (host : Host) (f : Call -> bool) :
  f (SetXWindow Video (winId host)) = false ->
  f (SetXWindow Audio (winId host)) = false ->
  f (SetHwnd Video (winId host)) = false ->
  f (SetHwnd Audio (winId host)) = false ->
  f (SetNsobject Video (winId host)) = false ->
  f (SetNsobject Audio (winId host)) = false ->
  filter f (attach_calls host) = [].
Proof.
  intros H1 H2 H3 H4 H5 H6. unfold attach_calls.
  destruct (String.eqb (platform_system host) "Linux"); [cbn; now rewrite H1, H2|].
  destruct (String.eqb (platform_system host) "Windows"); [cbn; now rewrite H3, H4|].
  destruct (String.eqb (platform_system host) "Darwin"); [cbn; now rewrite H5, H6|].
  reflexivity.
Qed.

(** The four ways [open_files] ends. *)
Lemma open_files_cases (host : Host) (w : MiniPlayer) :
  (Py.truthy (video_choice host) = false /\
   open_files host w = mkOutcome (Py.Ok tt) w [video_dialog host]) \/
  (Py.truthy (video_choice host) = true /\
   Py.truthy (audio_choice host) = false /\
   open_files host w = mkOutcome (Py.Ok tt) w [video_dialog host; audio_dialog host]) \/
  (Py.truthy (video_choice host) = true /\
   Py.truthy (audio_choice host) = true /\
   negb (names_platform host) || has_frame w = true /\
   open_files host w = mkOutcome (Py.Ok tt) (opened host w) (open_calls host w)) \/
  (Py.truthy (video_choice host) = true /\
   Py.truthy (audio_choice host) = true /\
   names_platform host = true /\
   has_frame w = false /\
   open_files host w =
   mkOutcome (Py.Raise Py.AttributeError) (titled host w) (title_calls host w)).
Proof.
  rewrite open_files_run. unfold open_outcome, has_frame.
  destruct (Py.truthy (video_choice host)); cbn [negb]; [|now left].
  destruct (Py.truthy (audio_choice host)); cbn [negb]; [|right; now left].
  destruct (names_platform host); cbn [negb orb].
  - destruct (videoframe w).
    + right. right. left. repeat split; reflexivity.
    + right. right. right. repeat split; reflexivity.
  - right. right. left. repeat split; reflexivity.
Qed.

(** [open_files] sets the title or starts a player only when both
    dialogs gave a file. *)
Lemma open_files_title_or_play_needs_both (host : Host) (w : MiniPlayer) (c : Call) :
  In c (trace (open_files host w)) ->
  (exists s : string, c = SetWindowTitle s) \/ (exists k : Track, c = Play k) ->
  video_choice host <> EmptyString /\ audio_choice host <> EmptyString.
Proof.
  intros Hin Hc.
  destruct (string_dec (video_choice host) EmptyString) as [Ev|Nv].
  - rewrite (open_files_cancelled_video host w Ev) in Hin.
    destruct Hin as [<-|[]]. destruct Hc as [[s Hs]|[k Hk]]; discriminate.
  - destruct (string_dec (audio_choice host) EmptyString) as [Ea|Na]; [|tauto].
    rewrite (open_files_cancelled_audio host w Nv Ea) in Hin.
    destruct Hin as [<-|[<-|[]]]; destruct Hc as [[s Hs]|[k Hk]]; discriminate.
Qed.

(** C7, as the code has it.  On a window that has its video frame (as it
    has when [__init__] calls [open_files]) and when both dialogs give a
    file, [open_files] makes a media object of each path and binds it to
    its player, parses both, sets the window title to the video media's
    title as read after parsing, starts both players, and makes exactly the
    calls of [open_calls] in that order.  It hands the frame's window id to
    both players when the operating system is Linux ([set_xwindow]),
    Windows ([set_hwnd]) or Darwin ([set_nsobject]); on any other system it
    attaches nothing and the players keep the surface they had.  No title
    is set and no player started unless both dialogs gave a file. *)
Theorem open_files_chosen_binds_titles_attaches_by_platform_and_plays :
  forall (host : Host) (w : MiniPlayer),
    has_frame w = true ->
    video_choice host <> EmptyString ->
    audio_choice host <> EmptyString ->
    let o := open_files host w in
    let n := List.length (media_store w) in
    let video := Vlc.mkMedia (video_choice host) true in
    let audio := Vlc.mkMedia (audio_choice host) true in
    let system := platform_system host in
    value o = Py.Ok tt /\
    trace o = open_calls host w /\
    (video_media (after o) = Some n /\
     Vlc.media (video_mediaplayer (after o)) = Some n /\
     nth_error (media_store (after o)) n = Some video) /\
    (audio_media (after o) = Some (S n) /\
     Vlc.media (audio_mediaplayer (after o)) = Some (S n) /\
     nth_error (media_store (after o)) (S n) = Some audio) /\
    windowTitle (after o) = format_braces (get_meta host video 0) /\
    (Vlc.drawable (video_mediaplayer (after o)) =
       attached host (Vlc.drawable (video_mediaplayer w)) /\
     Vlc.drawable (audio_mediaplayer (after o)) =
       attached host (Vlc.drawable (audio_mediaplayer w)) /\
     filter is_attach (trace o) = attach_calls host) /\
    (system = "Linux"%string ->
     Vlc.drawable (video_mediaplayer (after o)) = Some (Vlc.XWindow (winId host)) /\
     Vlc.drawable (audio_mediaplayer (after o)) = Some (Vlc.XWindow (winId host))) /\
    (system = "Windows"%string ->
     Vlc.drawable (video_mediaplayer (after o)) = Some (Vlc.Hwnd (winId host)) /\
     Vlc.drawable (audio_mediaplayer (after o)) = Some (Vlc.Hwnd (winId host))) /\
    (system = "Darwin"%string ->
     Vlc.drawable (video_mediaplayer (after o)) = Some (Vlc.NSObject (winId host)) /\
     Vlc.drawable (audio_mediaplayer (after o)) = Some (Vlc.NSObject (winId host))) /\
    (system <> "Linux"%string -> system <> "Windows"%string -> system <> "Darwin"%string ->
     Vlc.drawable (video_mediaplayer (after o)) = Vlc.drawable (video_mediaplayer w) /\
     Vlc.drawable (audio_mediaplayer (after o)) = Vlc.drawable (audio_mediaplayer w) /\
     filter is_attach (trace o) = []) /\
    (Vlc.playing (video_mediaplayer (after o)) = true /\
     Vlc.playing (audio_mediaplayer (after o)) = true /\
     In (Play Video) (trace o) /\
     In (Play Audio) (trace o)) /\
    (forall (host' : Host) (w' : MiniPlayer) (c : Call),
        In c (trace (open_files host' w')) ->
        (exists s : string, c = SetWindowTitle s) \/ (exists k : Track, c = Play k) ->
        video_choice host' <> EmptyString /\ audio_choice host' <> EmptyString).
Proof.
  intros host w Hf Hv Ha o n video audio system. subst o n video audio system.
  rewrite (open_files_chosen host w Hv Ha Hf). cbn [value after trace].
  assert (Hattach : filter is_attach (open_calls host w) = attach_calls host).
  { unfold open_calls, title_calls.
    rewrite !filter_app, attach_calls_are_attach. cbn.
    now rewrite app_nil_r. }
  split; [reflexivity|]. split; [reflexivity|].
  split; [|split; [|split; [reflexivity|split]]].
  - cbn. repeat split. apply nth_error_here.
  - cbn. repeat split.
    apply (nth_error_next (media_store w) [] (Vlc.mkMedia (video_choice host) true)).
  - cbn. repeat split. exact Hattach.
  - rewrite Hattach. unfold opened, attached, attach_calls.
    cbn [video_mediaplayer audio_mediaplayer Vlc.drawable].
    split; [|split; [|split; [|split; [|split]]]].
    + intros E. rewrite E. cbn. split; reflexivity.
    + intros E. rewrite E. cbn. split; reflexivity.
    + intros E. rewrite E. cbn. split; reflexivity.
    + intros N1 N2 N3.
      apply String.eqb_neq in N1, N2, N3. rewrite N1, N2, N3.
      repeat split; reflexivity.
    + split; [reflexivity|split; [reflexivity|]].
      unfold open_calls.
      split; apply in_or_app; right; apply in_or_app; right; cbn; tauto.
    + intros host' w' c. apply open_files_title_or_play_needs_both.
Qed.

(** Both files chosen on Linux, from the object [__init__] hands over. *)
Lemma open_files_chosen_binds_titles_attaches_by_platform_and_plays_witness :
  (has_frame (started linux_host) = true /\
   video_choice linux_host <> EmptyString /\
   audio_choice linux_host <> EmptyString) /\
  let o := open_files linux_host (started linux_host) in
  value o = Py.Ok tt /\
  trace o =
    [GetOpenFileName "Choose Video File" "/home/u";
     GetOpenFileName "Choose Audio File" "/home/u";
     MediaNew "/home/u/clip.mp4"; MediaNew "/home/u/clip.mp3";
     SetMedia Video 0%nat; SetMedia Audio 1%nat;
     Parse 0%nat; Parse 1%nat; GetMeta 0%nat 0;
     SetWindowTitle "Title of /home/u/clip.mp4";
     SetXWindow Video 77; SetXWindow Audio 77;
     Play Video; Play Audio] /\
  windowTitle (after o) = "Title of /home/u/clip.mp4"%string /\
  Vlc.drawable (video_mediaplayer (after o)) = Some (Vlc.XWindow 77) /\
  Vlc.drawable (audio_mediaplayer (after o)) = Some (Vlc.XWindow 77).
Proof.
  assert (Hv : video_choice linux_host <> EmptyString) by discriminate.
  assert (Ha : audio_choice linux_host <> EmptyString) by discriminate.
  split; [split; [reflexivity|split; assumption]|].
  pose proof (open_files_chosen_binds_titles_attaches_by_platform_and_plays
                linux_host (started linux_host) eq_refl Hv Ha) as H.
  cbv zeta in H.
  destruct H as (Hval & Htrace & _ & _ & Htitle & _ & Hlinux & _).
  destruct (Hlinux eq_refl) as (Hvd & Had).
  split; [exact Hval|]. split; [exact Htrace|]. split; [exact Htitle|].
  split; [exact Hvd|exact Had].
Defined.

(** C7 as stated fails on a system the code does not name: from the
    object [__init__] hands over, both files are chosen, bound and played,
    yet no surface is attached to either player. *)
Lemma open_files_attaches_nothing_on_freebsd :
  let o := open_files freebsd_host (started freebsd_host) in
  (has_frame (started freebsd_host) = true /\
   video_choice freebsd_host <> EmptyString /\
   audio_choice freebsd_host <> EmptyString) /\
  value o = Py.Ok tt /\
  In (Play Video) (trace o) /\
  In (Play Audio) (trace o) /\
  Vlc.drawable (video_mediaplayer (after o)) = None /\
  Vlc.drawable (audio_mediaplayer (after o)) = None /\
  filter is_attach (trace o) = [].
Proof.
  cbv zeta. split; [split; [reflexivity|split; discriminate]|].
  split; [reflexivity|].
  split; [cbn; tauto|]. split; [cbn; tauto|].
  repeat split; reflexivity.
Qed.

(** Without its frame the window cannot be handed to the players: on a
    named system [open_files] raises after the title is set, before
    anything is attached or started. *)
Example open_files_before_init_ui :
  let o := open_files linux_host blank in
  value o = Py.Raise Py.AttributeError /\
  windowTitle (after o) = "Title of /home/u/clip.mp4"%string /\
  filter is_attach (trace o) = [] /\
  Vlc.playing (video_mediaplayer (after o)) = false.
Proof. repeat split; reflexivity. Qed.

(* ================================================================== *)
(** ** Further properties of opening, of the constructor and of [main] *)
(* ================================================================== *)

Lemma open_files_no_seek (host : Host) (w : MiniPlayer) :
  filter is_seek (trace (open_files host w)) = [].
Proof.
  destruct (open_files_cases host w)
    as [(_ & ->)|[(_ & _ & ->)|[(_ & _ & _ & ->)|(_ & _ & _ & _ & ->)]]];
    cbn [trace]; try reflexivity.
  unfold open_calls. rewrite !filter_app, attach_calls_filtered by reflexivity.
  reflexivity.
Qed.


(** X9.  [open_files] always begins with the video dialog, and asks the
    audio dialog exactly when the video dialog gave a file: its dialogs are
    the video one alone after a cancelled video dialog, and the video one
    followed by the audio one otherwise.  No dialog is asked twice. *)
Theorem open_files_asks_video_then_audio :
  forall (host : Host) (w : MiniPlayer),
    let o := open_files host w in
    hd_error (trace o) = Some (video_dialog host) /\
    filter is_dialog (trace o) =
      (if Py.truthy (video_choice host)
       then [video_dialog host; audio_dialog host]
       else [video_dialog host]).
Proof.
  intros host w o. subst o.
  destruct (open_files_cases host w)
    as [(Hv & ->)|[(Hv & _ & ->)|[(Hv & _ & _ & ->)|(Hv & _ & _ & _ & ->)]]];
    rewrite Hv; cbn [trace]; split; try reflexivity.
  unfold open_calls. rewrite !filter_app, attach_calls_filtered by reflexivity.
  reflexivity.
Qed.

(** X10.  When the engine has no title for the parsed video media
    ([get_meta] answers [None]), a successful [open_files] sets the window
    title to the four letters "None". *)
Theorem open_files_titles_untitled_video_None :
  forall (host : Host) (w : MiniPlayer),
    video_choice host <> EmptyString ->
    audio_choice host <> EmptyString ->
    get_meta host (Vlc.mkMedia (video_choice host) true) 0 = None ->
    windowTitle (after (open_files host w)) = "None"%string /\
    In (SetWindowTitle "None") (trace (open_files host w)).
Proof.
  intros host w Hv Ha Hmeta.
  apply truthy_iff in Hv. apply truthy_iff in Ha.
  assert (Hin : In (SetWindowTitle "None") (title_calls host w)).
  { unfold title_calls. rewrite Hmeta. cbn. tauto. }
  destruct (open_files_cases host w)
    as [(Hv' & _)|[(_ & Ha' & _)|[(_ & _ & _ & ->)|(_ & _ & _ & _ & ->)]]];
    try congruence; cbn [after trace].
  - unfold opened, open_calls. cbn [windowTitle]. rewrite Hmeta.
    split; [reflexivity|]. apply in_or_app. now left.
  - unfold titled. cbn [windowTitle]. rewrite Hmeta.
    split; [reflexivity|exact Hin].
Qed.

Lemma open_files_titles_untitled_video_None_witness :
  (video_choice untitled_host <> EmptyString /\
   audio_choice untitled_host <> EmptyString /\
   get_meta untitled_host (Vlc.mkMedia (video_choice untitled_host) true) 0 = None) /\
  windowTitle (after (open_files untitled_host blank)) = "None"%string /\
  In (SetWindowTitle "None") (trace (open_files untitled_host blank)).
Proof.
  assert (Hv : video_choice untitled_host <> EmptyString) by discriminate.
  assert (Ha : audio_choice untitled_host <> EmptyString) by discriminate.
  split; [repeat split; [exact Hv|exact Ha]|].
  exact (open_files_titles_untitled_video_None untitled_host blank Hv Ha eq_refl).
Defined.

Lemma started_has_frame (host : Host) : has_frame (started host) = true.
Proof. reflexivity. Qed.

(** [__init__] up to [open_files], and after it. *)
Lemma init_run (host : Host) (q : list Py.value) :
  init host q =
  mkOutcome (Py.Ok tt)
    (with_data_queue q (after (open_files host (started host))))
    ([SetWindowTitle "Mini Player"; ShowMessage "Ready"] ++
     trace (open_files host (started host))).
Proof.
  assert (Hval : value (open_files host (started host)) = Py.Ok tt).
  { destruct (open_files_cases host (started host))
      as [(_ & ->)|[(_ & _ & ->)|[(_ & _ & _ & ->)|(_ & _ & _ & Hf & _)]]];
      try reflexivity.
    rewrite started_has_frame in Hf. discriminate. }
  unfold init, bind, setWindowTitle, showMessage, command, init_ui.
  cbv beta iota zeta delta [value after trace].
  change (with_videoframe _ (with_statusbar _ (with_windowTitle _ blank)))
    with (started host).
  fold (value (open_files host (started host))). rewrite Hval.
  cbn [app]. now rewrite app_nil_r.
Qed.

(** X11.  Whatever the dialogs give, [__init__] returns normally with the
    message "Ready" shown, the queue it was given, and the frame of the
    platform (a Cocoa container on Darwin, a plain frame elsewhere).  The
    title is the video's when both files were chosen and "Mini Player"
    otherwise, and the players are bound and playing exactly when both
    files were chosen; its first two calls set that title and that
    message. *)
Theorem init_outcome_by_dialogs :
  forall (host : Host) (q : list Py.value),
    let i := init host q in
    let both := Py.truthy (video_choice host) && Py.truthy (audio_choice host) in
    value i = Py.Ok tt /\
    statusbar (after i) = "Ready"%string /\
    data_queue (after i) = q /\
    videoframe (after i) =
      Some (if String.eqb (platform_system host) "Darwin"
            then QMacCocoaViewContainer else QFrame) /\
    windowTitle (after i) =
      (if both
       then format_braces (get_meta host (Vlc.mkMedia (video_choice host) true) 0)
       else "Mini Player"%string) /\
    Vlc.playing (video_mediaplayer (after i)) = both /\
    Vlc.playing (audio_mediaplayer (after i)) = both /\
    Vlc.media (video_mediaplayer (after i)) = (if both then Some 0%nat else None) /\
    Vlc.media (audio_mediaplayer (after i)) = (if both then Some 1%nat else None) /\
    firstn 2 (trace i) = [SetWindowTitle "Mini Player"; ShowMessage "Ready"].
Proof.
  intros host q i both. subst i both. rewrite init_run. cbn [value after trace].
  destruct (open_files_cases host (started host))
    as [(Hv & ->)|[(Hv & Ha & ->)|[(Hv & Ha & _ & ->)|(_ & _ & _ & Hf & _)]]];
    [| | |rewrite started_has_frame in Hf; discriminate];
    rewrite Hv, ?Ha; cbn [after andb]; repeat split; reflexivity.
Qed.

Example init_with_both_files :
  windowTitle (after (init linux_host [])) = "Title of /home/u/clip.mp4"%string /\
  Vlc.playing (video_mediaplayer (after (init linux_host []))) = true.
Proof. split; reflexivity. Qed.

(** After [__init__] both players are where new players are, at -1. *)
Lemma init_positions (host : Host) (q : list Py.value) :
  Vlc.time (video_mediaplayer (after (init host q))) = -1 /\
  Vlc.time (audio_mediaplayer (after (init host q))) = -1.
Proof.
  rewrite init_run. cbn [after].
  destruct (open_files_cases host (started host))
    as [(_ & ->)|[(_ & _ & ->)|[(_ & _ & _ & ->)|(_ & _ & _ & Hf & _)]]];
    [| | |rewrite started_has_frame in Hf; discriminate];
    split; reflexivity.
Qed.

(** X12.  The program as [main] runs it: the queue starts empty and
    nothing fills it, so however many times the timer fires no [set_time]
    is ever issued, the players stay as [__init__] left them and the queue
    stays empty. *)
Theorem main_never_seeks :
  forall (host : Host) (n : nat),
    value (main host n) = Py.Ok tt /\
    filter is_seek (trace (main host n)) = [] /\
    video_mediaplayer (after (main host n)) = video_mediaplayer (after (init host [])) /\
    audio_mediaplayer (after (main host n)) = audio_mediaplayer (after (init host [])) /\
    data_queue (after (main host n)) = [].
Proof.
  intros host n. unfold main. cbv zeta.
  assert (Hval : value (init host []) = Py.Ok tt) by now rewrite init_run.
  assert (Hq : data_queue (after (init host [])) = []) by now rewrite init_run.
  assert (Hs : filter is_seek (trace (init host [])) = []).
  { rewrite init_run. cbn [trace]. rewrite filter_app, open_files_no_seek.
    reflexivity. }
  assert (Hfit : positions_fit (after (init host [])) = true).
  { unfold positions_fit. destruct (init_positions host []) as (-> & ->).
    reflexivity. }
  rewrite Hval. cbn [value after trace].
  destruct (ticks_empty_run n _ Hfit Hq) as (Hv & Hseek & Hpv & Hpa & Hq').
  rewrite filter_app, Hs, Hseek. repeat split; assumption.
Qed.

(** X13.  [update_statusbar] asks neither the queue nor for a seek and
    changes nothing but the status text; it returns normally when both
    positions fit a C [int] and raises [OverflowError] otherwise, leaving
    the text as it was.  Called again right away it leaves the object as
    the first call left it. *)
Theorem update_statusbar_changes_text_only_and_is_idempotent :
  forall w : MiniPlayer,
    let o := update_statusbar w in
    value o = (if positions_fit w then Py.Ok tt else Py.Raise Py.OverflowError) /\
    after o = with_statusbar (statusbar (after o)) w /\
    (positions_fit w = false -> after o = w) /\
    filter is_seek (trace o) = [] /\
    filter is_get (trace o) = [] /\
    after (update_statusbar (after o)) = after o.
Proof.
  intros w o. subst o. rewrite update_statusbar_run.
  destruct (positions_fit w) eqn:Hfit; cbn [value after trace].
  - rewrite status_calls_no_seek, status_calls_no_get_filter,
      update_statusbar_run.
    assert (Hfit' : positions_fit (with_statusbar (status_line w) w) = true)
      by (destruct w; exact Hfit).
    rewrite Hfit'. cbn [after].
    repeat split; try reflexivity; try discriminate.
    unfold status_line. destruct w as [ti sb vf ms vm am vp ap dq]. cbn.
    destruct (Vlc.playing vp); [reflexivity|].
    destruct (Vlc.playing ap); reflexivity.
  - destruct (refresh_calls_overflow w Hfit) as (-> & -> & _).
    rewrite update_statusbar_run, Hfit. cbn [after].
    repeat split; try reflexivity. now rewrite with_statusbar_same.
Qed.

(* ================================================================== *)
(** ** The clock of the status line *)
(* ================================================================== *)

Lemma wrap32_id (z : Z) :
  -2147483648 <= z <= 2147483647 -> QTime.wrap32 z = z.
Proof.
  intros H. unfold QTime.wrap32. rewrite Z.mod_small by lia. lia.
Qed.

(** From midnight, and where the 32-bit arithmetic does not overflow,
    [addMSecs] gives the position modulo a day. *)
Lemma addMSecs_int_midnight (ms : Z) :
  -2061083647 <= ms <= 2147483647 ->
  QTime.addMSecs_int (QTime.make 0 0 0 0) ms = ms mod QTime.msecs_per_day.
Proof.
  intros H. unfold QTime.addMSecs_int.
  change (QTime.isValid (QTime.make 0 0 0 0)) with true.
  change (QTime.make 0 0 0 0) with 0. cbv iota. rewrite Z.add_0_l.
  unfold QTime.msecs_per_day. destruct (Z.ltb_spec ms 0) as [Hneg|Hpos].
  - cbv zeta.
    rewrite (wrap32_id (86400000 - ms)) by lia.
    rewrite (wrap32_id ms) by lia.
    rewrite Z.quot_div_nonneg by lia.
    pose proof (Z.div_mod (86400000 - ms) 86400000 ltac:(lia)) as Hdm.
    pose proof (Z.mod_pos_bound (86400000 - ms) 86400000 ltac:(lia)) as Hb.
    set (k := (86400000 - ms) / 86400000) in *.
    assert (Hk : 0 <= k * 86400000 <= 86400000 - ms) by lia.
    rewrite (wrap32_id (k * 86400000)) by lia.
    rewrite (wrap32_id (ms + k * 86400000)) by lia.
    rewrite Z.rem_mod_nonneg by lia.
    apply Z_mod_plus_full.
  - rewrite (wrap32_id ms) by lia. apply Z.rem_mod_nonneg; lia.
Qed.

Lemma clock_text_day (t : Z) :
  -2061083647 <= t ->
  t + 86400000 <= 2147483647 ->
  clock_text (t + 86400000) = clock_text t.
Proof.
  intros Hlo Hhi. unfold clock_text, QTime.addMSecs.
  assert (F1 : QTime.fits_c_int t = true)
    by (unfold QTime.fits_c_int; apply andb_true_iff; split;
        apply Z.leb_le; lia).
  assert (F2 : QTime.fits_c_int (t + 86400000) = true)
    by (unfold QTime.fits_c_int; apply andb_true_iff; split;
        apply Z.leb_le; lia).
  rewrite F1, F2, !addMSecs_int_midnight by lia.
  f_equal. unfold QTime.msecs_per_day.
  replace (t + 86400000) with (t + 1 * 86400000) by lia.
  apply Z_mod_plus_full.
Qed.

(** X14.  The status line shows the position as a time of day.  Where the
    refresh returns and the toolkit's 32-bit arithmetic does not overflow
    (positions from -2061083647 up to the largest C [int]), a playing
    video a whole day (86400000 ms) further on shows the same text, and
    the position -1 of an empty player shows as 23:59:59. *)
Theorem update_statusbar_wraps_positions_at_a_day :
  forall w w' : MiniPlayer,
    positions_fit w = true ->
    positions_fit w' = true ->
    Vlc.playing (video_mediaplayer w) = true ->
    Vlc.playing (video_mediaplayer w') = true ->
    -2061083647 <= Vlc.time (video_mediaplayer w) ->
    Vlc.time (video_mediaplayer w') = Vlc.time (video_mediaplayer w) + 86400000 ->
    statusbar (after (update_statusbar w')) = statusbar (after (update_statusbar w)) /\
    (Vlc.time (video_mediaplayer w) = -1 ->
     statusbar (after (update_statusbar w)) = "Video: 23:59:59"%string).
Proof.
  intros w w' Hfit Hfit' Hp Hp' Hlo Ht.
  rewrite !update_statusbar_run, Hfit, Hfit'. cbn [after].
  assert (Hs : forall x : MiniPlayer,
             statusbar (with_statusbar (status_line x) x) = status_line x)
    by (intros x; reflexivity).
  rewrite !Hs. unfold status_line. rewrite Hp, Hp', Ht. split.
  - f_equal. apply clock_text_day; [exact Hlo|].
    apply positions_fit_true in Hfit'. destruct Hfit' as (Hv & _).
    rewrite Ht in Hv. unfold QTime.fits_c_int in Hv.
    apply andb_true_iff in Hv. destruct Hv as (_ & Hv).
    now apply Z.leb_le in Hv.
  - intros ->. reflexivity.
Qed.

Lemma update_statusbar_wraps_positions_at_a_day_witness :
  let w := demo 61000 0 [] in
  let w' := demo 86461000 0 [] in
  (positions_fit w = true /\
   positions_fit w' = true /\
   Vlc.playing (video_mediaplayer w) = true /\
   Vlc.playing (video_mediaplayer w') = true /\
   -2061083647 <= Vlc.time (video_mediaplayer w) /\
   Vlc.time (video_mediaplayer w') = Vlc.time (video_mediaplayer w) + 86400000) /\
  statusbar (after (update_statusbar w')) = statusbar (after (update_statusbar w)) /\
  (Vlc.time (video_mediaplayer w) = -1 ->
   statusbar (after (update_statusbar w)) = "Video: 23:59:59"%string).
Proof.
  intros w w'.
  assert (Hlo : -2061083647 <= Vlc.time (video_mediaplayer (demo 61000 0 [])))
    by (cbn; lia).
  split; [repeat split; try reflexivity; exact Hlo|].
  exact (update_statusbar_wraps_positions_at_a_day
           (demo 61000 0 []) (demo 86461000 0 [])
           eq_refl eq_refl eq_refl eq_refl Hlo eq_refl).
Defined.
